(** * BBO ingress: parser, slot pool and receive engine

    A shallow embedding of the hot path of the kernel-bypass BBO receiver
    (bbo_data.h, bbo_pool.h, bbo_parser_fast.h, dpdk_receiver.h and
    dpdk_receiver.cpp), with the properties of its specification stated
    and proved over it.

    Conventions.
    - Fixed-width unsigned integers are [Z] with the wrap-around written
      out ([mod 2^32], [mod 2^64]).
    - A pointer into packet memory is a function from byte offsets to
      bytes: the source never checks a read against the frame length, so
      the model gives every offset a byte and the theorems quantify over
      all contents.
    - IEEE doubles are Rocq's primitive binary64 floats.
    - The host is little-endian (the source byte-swaps every wire field
      and reads the x86 cycle counter). *)

From Stdlib Require Import ZArith Lia Bool.
From Stdlib Require Import Strings.Byte Strings.String.
From Stdlib Require Import Floats.PrimFloat Numbers.Cyclic.Int63.Uint63.
From stdpp Require Import base list.

Local Open Scope Z_scope.

(** ** Machine integers *)

Definition UINT32_MOD : Z := 2 ^ 32.
Definition UINT64_MOD : Z := 2 ^ 64.

Definition wrap32 (x : Z) : Z := x mod UINT32_MOD.
Definition wrap64 (x : Z) : Z := x mod UINT64_MOD.

(** [__builtin_bswap16] on a 16-bit value: the two bytes exchanged. *)
Definition bswap16 (x : Z) : Z :=
  (x mod 256) * 256 + (x / 256) mod 256.

(** On the little-endian host both conversions are the byte swap. *)
Definition rte_cpu_to_be_16 (x : Z) : Z := bswap16 x.
Definition rte_be_to_cpu_16 (x : Z) : Z := bswap16 x.

(** [__builtin_bswap32] on a 32-bit value: the four bytes reversed. *)
Definition bswap32 (x : Z) : Z :=
  (x mod 256) * 2 ^ 24 + ((x / 2 ^ 8) mod 256) * 2 ^ 16
  + ((x / 2 ^ 16) mod 256) * 2 ^ 8 + (x / 2 ^ 24) mod 256.

(** ** Packet memory *)

Definition memory : Type := Z -> byte.

(** Pointer arithmetic [p + k]. *)
Definition ptr_add (m : memory) (k : Z) : memory := fun i => m (k + i).

(** A buffer holding the listed bytes at offsets 0, 1, ... and zero
    elsewhere; used to write concrete frames down. *)
Definition mem_of_list (l : list byte) : memory :=
  fun i => if i <? 0 then x00 else nth (Z.to_nat i) l x00.

Definition load8 (m : memory) (off : Z) : Z := Z.of_N (Byte.to_N (m off)).

(** [byte] of the low eight bits of an integer. *)
Definition byte_of_Z (v : Z) : byte :=
  match Byte.of_N (Z.to_N (v mod 256)) with
  | Some b => b
  | None => x00
  end.

(** Native (little-endian) loads of a [uint16_t] and a [uint32_t]. *)
Definition load16 (m : memory) (off : Z) : Z :=
  load8 m off + 256 * load8 m (off + 1).

Definition load32 (m : memory) (off : Z) : Z :=
  load8 m off + 2 ^ 8 * load8 m (off + 1)
  + 2 ^ 16 * load8 m (off + 2) + 2 ^ 24 * load8 m (off + 3).

(** Stores: one byte, a native [uint16_t], a native [uint32_t],
    [memset] and [memcpy] from a literal. *)
Definition store8 (m : memory) (off : Z) (v : Z) : memory :=
  fun i => if i =? off then byte_of_Z v else m i.

Definition store16 (m : memory) (off : Z) (v : Z) : memory :=
  store8 (store8 m off v) (off + 1) (v / 256).

Definition store32 (m : memory) (off : Z) (v : Z) : memory :=
  store8 (store8 (store8 (store8 m off v) (off + 1) (v / 2 ^ 8))
                 (off + 2) (v / 2 ^ 16))
         (off + 3) (v / 2 ^ 24).

Definition memset (m : memory) (off : Z) (b : byte) (n : Z) : memory :=
  fun i => if (off <=? i) && (i <? off + n) then b else m i.

Definition store_bytes (m : memory) (off : Z) (l : list byte) : memory :=
  fun i => if (off <=? i) && (i <? off + Z.of_nat (length l))
           then nth (Z.to_nat (i - off)) l x00 else m i.

(** The [n] bytes at offsets [off], [off+1], ... *)
Fixpoint load_bytes (m : memory) (off : Z) (n : nat) : list byte :=
  match n with
  | O => []
  | S n' => m off :: load_bytes m (off + 1) n'
  end.

(** [std::memcpy(dst, src, n)] into a byte array held as a list: the
    first [n] bytes are replaced, the rest of [dst] stays. *)
Definition memcpy (dst : list byte) (src : memory) (n : nat) : list byte :=
  load_bytes src 0 n ++ drop n dst.

(** ** bbo_data.h: the 64-byte record *)

Module BboFlags.
Definition HAS_FPGA_TIMESTAMPS : Z := 1.
Definition IS_SYNTHETIC : Z := 2.  (* warm-up packet *)
Definition IS_STALE : Z := 4.
End BboFlags.

Record BBODataFast : Type := mkBBODataFast {
  symbol : list byte;      (* char symbol[8] *)
  bid_price : float;
  ask_price : float;
  bid_shares : Z;          (* uint32_t *)
  ask_shares : Z;          (* uint32_t *)
  spread : float;
  timestamp_ns : Z;        (* uint64_t *)
  sequence : Z;            (* uint32_t *)
  valid : Z;               (* uint8_t *)
  flags : Z;               (* uint8_t *)
  padding : list byte      (* uint8_t padding[10] *)
}.

(** The all-zero record. *)
Definition zero_record : BBODataFast :=
  {| symbol := replicate 8 x00;
     bid_price := 0%float; ask_price := 0%float;
     bid_shares := 0; ask_shares := 0;
     spread := 0%float;
     timestamp_ns := 0; sequence := 0; valid := 0; flags := 0;
     padding := replicate 10 x00 |}.

(** [clear()]: [memset(this, 0, sizeof( *this))]. *)
Definition clear (_ : BBODataFast) : BBODataFast := zero_record.

Definition SPACE : byte := x20.
Definition NUL : byte := x00.

(** The loop [for (i = from; i < 8; ++i) symbol[i] = ' '], run for
    [count] iterations starting at index [from]. *)
Fixpoint pad_spaces (sym : list byte) (from count : nat) : list byte :=
  match count with
  | O => sym
  | S c => pad_spaces (<[from := SPACE]> sym) (S from) c
  end.

Definition with_symbol (r : BBODataFast) (s : list byte) : BBODataFast :=
  {| symbol := s;
     bid_price := bid_price r; ask_price := ask_price r;
     bid_shares := bid_shares r; ask_shares := ask_shares r;
     spread := spread r;
     timestamp_ns := timestamp_ns r; sequence := sequence r;
     valid := valid r; flags := flags r;
     padding := padding r |}.

(** [set_symbol(sym, len)], [len] a [size_t]. *)
Definition set_symbol (r : BBODataFast) (sym : memory) (len : Z) : BBODataFast :=
  let copy_len := if len <? 8 then len else 8 in
  let n := Z.to_nat copy_len in
  with_symbol r (pad_spaces (memcpy (symbol r) sym n) n (8 - n)).

Definition is_space_or_nul (b : byte) : bool :=
  Byte.eqb b SPACE || Byte.eqb b NUL.

Definition is_space (b : byte) : bool := Byte.eqb b SPACE.

(** The loop [while (len > 0 && (symbol[len-1] == ' ' || symbol[len-1]
    == '\0')) --len], entered with the given [len]. *)
Fixpoint trimmed_len (sym : list byte) (len : nat) : nat :=
  match len with
  | O => O
  | S n => if is_space_or_nul (nth n sym NUL) then trimmed_len sym n else len
  end.

(** [get_symbol()]: [std::string(symbol, len)] for the trimmed [len]. *)
Definition get_symbol (r : BBODataFast) : list byte :=
  take (trimmed_len (symbol r) 8) (symbol r).

(** Specification side: a byte string with its trailing bytes satisfying
    [p] removed. *)
Fixpoint rstrip (p : byte -> bool) (l : list byte) : list byte :=
  match l with
  | [] => []
  | b :: t =>
      match rstrip p t with
      | [] => if p b then [] else [b]
      | t' => b :: t'
      end
  end.

(** ** bbo_pool.h: the slot pool *)

(** [pool_] points at an array of records; the slot at index [i] is
    [pool_ i]. [head_] is the [uint32_t] acquire counter. The template
    parameter [POOL_SIZE] is passed to the operations. *)
Record BBOPool : Type := mkBBOPool {
  pool_ : Z -> BBODataFast;
  head_ : Z
}.

(** The two [static_assert]s of the class template. *)
Definition pool_size_accepted (POOL_SIZE : Z) : bool :=
  (Z.land POOL_SIZE (POOL_SIZE - 1) =? 0) && (64 <=? POOL_SIZE).

(** [acquire()]: [idx = head_.fetch_add(1) & (POOL_SIZE - 1)], narrowed
    to [uint32_t]; returns the slot index (the pointer is [&pool_[idx]]). *)
Definition acquire (POOL_SIZE : Z) (p : BBOPool) : Z * BBOPool :=
  let idx := wrap32 (Z.land (head_ p) (POOL_SIZE - 1)) in
  (idx, {| pool_ := pool_ p; head_ := wrap32 (head_ p + 1) |}).

Definition current_head (p : BBOPool) : Z := head_ p.

(** Store through a slot pointer. *)
Definition store_slot (p : BBOPool) (idx : Z) (r : BBODataFast) : BBOPool :=
  {| pool_ := fun i => if i =? idx then r else pool_ p i;
     head_ := head_ p |}.

(** The pool as the constructor leaves it: every slot cleared, head 0. *)
Definition fresh_pool : BBOPool :=
  {| pool_ := fun _ => zero_record;
     head_ := 0 |}.

(** The pool after [n] successive acquires. *)
Fixpoint acquire_times (POOL_SIZE : Z) (n : nat) (p : BBOPool) : BBOPool :=
  match n with
  | O => p
  | S n' => acquire_times POOL_SIZE n' (snd (acquire POOL_SIZE p))
  end.

(** ** bbo_parser_fast.h: the wire parser *)

Definition PRICE_MULTIPLIER : float := 0x1.a36e2eb1c432dp-14%float. (* 0.0001 *)
Definition BBO_MIN_SIZE : Z := 28.
Definition BBO_FULL_SIZE : Z := 44.

Definition SYMBOL_OFFSET : Z := 0.
Definition BID_PRICE_OFFSET : Z := 8.

(** Conversion of a [uint32_t] to [double] (exact). *)
Definition u32_to_double (x : Z) : float := PrimFloat.of_uint63 (Uint63.of_Z x).

(** The body of [parse] after the slot is acquired: the stores through
    [bbo], applied to the slot's previous contents. *)
Definition populate (bbo : BBODataFast) (data : memory) (len ts_ns seq : Z)
    : BBODataFast :=
  let sym := memcpy (symbol bbo) (ptr_add data SYMBOL_OFFSET) 8 in
  let prices := ptr_add data BID_PRICE_OFFSET in
  let bid_raw := bswap32 (load32 prices 0) in
  let bid_sh := bswap32 (load32 prices 4) in
  let ask_raw := bswap32 (load32 prices 8) in
  let ask_sh := bswap32 (load32 prices 12) in
  let spread_raw := bswap32 (load32 prices 16) in
  {| symbol := sym;
     bid_price := PrimFloat.mul (u32_to_double bid_raw) PRICE_MULTIPLIER;
     ask_price := PrimFloat.mul (u32_to_double ask_raw) PRICE_MULTIPLIER;
     bid_shares := bid_sh;
     ask_shares := ask_sh;
     spread := PrimFloat.mul (u32_to_double spread_raw) PRICE_MULTIPLIER;
     timestamp_ns := ts_ns;
     sequence := seq;
     valid := 1;
     flags := if BBO_FULL_SIZE <=? len
              then BboFlags.HAS_FPGA_TIMESTAMPS else 0;
     padding := padding bbo |}.

(** [BBOParserFast::parse(data, len, pool, ts_ns, sequence)]: [None] is
    the null pointer; [Some (idx, pool')] is the pointer to slot [idx]
    of the updated pool. *)
Definition parse (POOL_SIZE : Z) (data : memory) (len : Z) (pool : BBOPool)
    (ts_ns : Z) (seq : Z) : option (Z * BBOPool) :=
  if len <? BBO_MIN_SIZE then None
  else
    let '(idx, pool1) := acquire POOL_SIZE pool in
    let bbo := pool_ pool1 idx in
    Some (idx, store_slot pool1 idx (populate bbo data len ts_ns seq)).

(** The record a returned pointer designates. *)
Definition deref (res : Z * BBOPool) : BBODataFast := pool_ (snd res) (fst res).

(** The 28-byte payload of the minimal-parse scenario. *)
Definition aapl_payload : list byte :=
  [x41; x41; x50; x4c; x20; x20; x20; x20;
   x00; x16; xe3; x60;  x00; x00; x00; x64;
   x00; x16; xe5; xa0;  x00; x00; x00; x64;
   x00; x00; x27; x10].

(** ** The downstream record and ring (external collaborators) *)

Module gateway.

(** Modelled from the spec: [gateway::BBOData] is declared in
    common/bbo_data.h, outside this repository. The spec gives it a
    16-byte symbol field; the remaining fields are those that
    [convert_and_publish] assigns. *)
Definition SYMBOL_MAX_LEN : nat := 16.

Record BBOData : Type := mkBBOData {
  symbol : list byte;      (* char symbol[SYMBOL_MAX_LEN] *)
  bid_price : float;
  ask_price : float;
  bid_shares : Z;
  ask_shares : Z;
  spread : float;
  timestamp_ns : Z;        (* int64_t *)
  valid : bool;
  fpga_ts_t1 : Z;
  fpga_ts_t2 : Z;
  fpga_ts_t3 : Z;
  fpga_ts_t4 : Z;
  fpga_latency_a_us : float;
  fpga_latency_b_us : float;
  fpga_latency_us : float;
  fpga_rx_timestamp : Z;
  fpga_tx_timestamp : Z
}.

End gateway.

(** Modelled from the spec: [disruptor::BboRingBuffer] lives in
    common/disruptor, outside this repository. The receiver uses one
    operation of it, the non-blocking [try_publish(record) -> bool],
    which returns false when the ring is full. Any ring with that
    operation will do. *)
Class RingBuffer (R : Type) : Type := {
  try_publish : R -> gateway.BBOData -> bool * R
}.

(** A bounded ring that keeps what was published, oldest first; nothing
    is consumed. Used to run the receiver on concrete inputs. *)
Record BoundedRing : Type := mkBoundedRing {
  capacity : nat;
  entries : list gateway.BBOData
}.

#[global] Instance BoundedRing_ring : RingBuffer BoundedRing := {
  try_publish ring rec :=
    if (length (entries ring) <? capacity ring)%nat
    then (true, {| capacity := capacity ring;
                   entries := entries ring ++ [rec] |})
    else (false, ring)
}.

(** ** rdtsc.h: the clock *)

(** [TSCCalibrator]: the receiver only calls [cycles_to_ns], whose value
    is the product of the cycle count with the calibrated double
    [ns_per_cycle_] cast to [uint64_t]. The conversion is kept as a
    function of the calibrator. *)
Record TSCCalibrator : Type := mkTSCCalibrator {
  cycles_to_ns : Z -> Z
}.

(** ** dpdk_receiver.h: the receive engine *)

Record Config : Type := mkConfig {
  port_id : Z;
  queue_id : Z;
  udp_port : Z;            (* uint16_t, default 12345 *)
  lcore_id : Z;
  shm_name : string;
  enable_stats : bool      (* default true *)
}.

Definition default_config : Config :=
  {| port_id := 0; queue_id := 0; udp_port := 12345; lcore_id := -1;
     shm_name := "gateway"; enable_stats := true |}.

Record Stats : Type := mkStats {
  packets_received : Z;    (* std::atomic<uint64_t>, all five *)
  packets_processed : Z;
  packets_dropped : Z;
  parse_errors : Z;
  ring_buffer_full : Z
}.

Definition zero_stats : Stats := mkStats 0 0 0 0 0.

(** [fetch_add(1)] on a 64-bit counter. *)
Definition fetch_add_1 (c : Z) : Z := wrap64 (c + 1).

Definition count_packets_received (s : Stats) : Stats :=
  {| packets_received := fetch_add_1 (packets_received s);
     packets_processed := packets_processed s;
     packets_dropped := packets_dropped s;
     parse_errors := parse_errors s;
     ring_buffer_full := ring_buffer_full s |}.

Definition count_packets_processed (s : Stats) : Stats :=
  {| packets_received := packets_received s;
     packets_processed := fetch_add_1 (packets_processed s);
     packets_dropped := packets_dropped s;
     parse_errors := parse_errors s;
     ring_buffer_full := ring_buffer_full s |}.

Definition count_parse_errors (s : Stats) : Stats :=
  {| packets_received := packets_received s;
     packets_processed := packets_processed s;
     packets_dropped := packets_dropped s;
     parse_errors := fetch_add_1 (parse_errors s);
     ring_buffer_full := ring_buffer_full s |}.

Definition count_ring_buffer_full (s : Stats) : Stats :=
  {| packets_received := packets_received s;
     packets_processed := packets_processed s;
     packets_dropped := packets_dropped s;
     parse_errors := parse_errors s;
     ring_buffer_full := fetch_add_1 (ring_buffer_full s) |}.

(** The members of [DPDKReceiver] that the hot path reads or writes.
    [bbo_pool_] is a [BBOPool<1024>]. *)
Record DPDKReceiver (R : Type) : Type := mkDPDKReceiver {
  config_ : Config;
  stats_ : Stats;
  tsc_ : TSCCalibrator;
  bbo_pool_ : BBOPool;
  ring_buffer_ : R;
  sequence_ : Z            (* uint32_t *)
}.

Arguments mkDPDKReceiver {R}.
Arguments config_ {R}.
Arguments stats_ {R}.
Arguments tsc_ {R}.
Arguments bbo_pool_ {R}.
Arguments ring_buffer_ {R}.
Arguments sequence_ {R}.

Definition RECEIVER_POOL_SIZE : Z := 1024.

(** Member functions are state transformers over the receiver; a [void]
    function returns [unit]. *)
Definition M (R A : Type) : Type := DPDKReceiver R -> A * DPDKReceiver R.

Definition ret {R A : Type} (a : A) : M R A := fun r => (a, r).

Definition bind {R A B : Type} (c : M R A) (k : A -> M R B) : M R B :=
  fun r => let '(a, r') := c r in k a r'.

Definition gets {R A : Type} (f : DPDKReceiver R -> A) : M R A :=
  fun r => (f r, r).

Definition modify {R : Type} (f : DPDKReceiver R -> DPDKReceiver R) : M R unit :=
  fun r => (tt, f r).

Notation "x <- c ;; k" := (bind c (fun x => k))
  (at level 100, c at next level, right associativity).
Notation "c ;;; k" := (bind c (fun _ => k))
  (at level 100, right associativity).

Definition with_stats {R : Type} (f : Stats -> Stats) (r : DPDKReceiver R)
    : DPDKReceiver R :=
  {| config_ := config_ r; stats_ := f (stats_ r); tsc_ := tsc_ r;
     bbo_pool_ := bbo_pool_ r; ring_buffer_ := ring_buffer_ r;
     sequence_ := sequence_ r |}.

Definition with_pool {R : Type} (p : BBOPool) (r : DPDKReceiver R)
    : DPDKReceiver R :=
  {| config_ := config_ r; stats_ := stats_ r; tsc_ := tsc_ r;
     bbo_pool_ := p; ring_buffer_ := ring_buffer_ r;
     sequence_ := sequence_ r |}.

Definition with_ring {R : Type} (ring : R) (r : DPDKReceiver R)
    : DPDKReceiver R :=
  {| config_ := config_ r; stats_ := stats_ r; tsc_ := tsc_ r;
     bbo_pool_ := bbo_pool_ r; ring_buffer_ := ring;
     sequence_ := sequence_ r |}.

Definition with_sequence {R : Type} (s : Z) (r : DPDKReceiver R)
    : DPDKReceiver R :=
  {| config_ := config_ r; stats_ := stats_ r; tsc_ := tsc_ r;
     bbo_pool_ := bbo_pool_ r; ring_buffer_ := ring_buffer_ r;
     sequence_ := s |}.

(** [if (config_.enable_stats) stats_.<counter>.fetch_add(1, relaxed)]. *)
Definition count_if_enabled {R : Type} (f : Stats -> Stats) : M R unit :=
  cfg <- gets config_ ;;
  if enable_stats cfg then modify (with_stats f) else ret tt.

(** [sequence_++]: yields the old value. *)
Definition next_sequence {R : Type} : M R Z :=
  s <- gets sequence_ ;;
  modify (with_sequence (wrap32 (s + 1))) ;;;
  ret s.

(** [static_cast<int64_t>] of a [uint64_t]. *)
Definition to_int64 (x : Z) : Z :=
  if x <? 2 ^ 63 then x else x - 2 ^ 64.

(** [std::memcpy] between two byte arrays held as lists. *)
Definition memcpy_array (dst src : list byte) (n : nat) : list byte :=
  take n src ++ drop n dst.

(** The first half of [convert_and_publish]: the local
    [gateway::BBOData bbo] as it stands when [try_publish] is called.
    The symbol array of the local is written in full, so its initial
    contents do not matter; it starts here as zeros. *)
Definition to_gateway (fast : BBODataFast) : gateway.BBOData :=
  let sym0 := replicate gateway.SYMBOL_MAX_LEN NUL in
  let sym1 := memcpy_array sym0 (symbol fast) 8 in
  let sym2 := pad_spaces sym1 8 (gateway.SYMBOL_MAX_LEN - 8) in
  let sym3 := <[(gateway.SYMBOL_MAX_LEN - 1)%nat := NUL]> sym2 in
  {| gateway.symbol := sym3;
     gateway.bid_price := bid_price fast;
     gateway.ask_price := ask_price fast;
     gateway.bid_shares := bid_shares fast;
     gateway.ask_shares := ask_shares fast;
     gateway.spread := spread fast;
     gateway.timestamp_ns := to_int64 (timestamp_ns fast);
     gateway.valid := negb (valid fast =? 0);
     gateway.fpga_ts_t1 := 0;
     gateway.fpga_ts_t2 := 0;
     gateway.fpga_ts_t3 := 0;
     gateway.fpga_ts_t4 := 0;
     gateway.fpga_latency_a_us := 0%float;
     gateway.fpga_latency_b_us := 0%float;
     gateway.fpga_latency_us := 0%float;
     gateway.fpga_rx_timestamp := 0;
     gateway.fpga_tx_timestamp := 0 |}.

(** [void DPDKReceiver::convert_and_publish(const BBODataFast& fast)]. *)
Definition convert_and_publish {R : Type} `{RingBuffer R} (fast : BBODataFast)
    : M R unit :=
  let bbo := to_gateway fast in
  ring <- gets ring_buffer_ ;;
  let '(ok, ring') := try_publish ring bbo in
  modify (with_ring ring') ;;;
  if negb ok then count_if_enabled count_ring_buffer_full else ret tt.

(** Header layout of the kernel-bypass framework: [rte_ether_hdr] is 14
    bytes with [ether_type] at offset 12; [rte_ipv4_hdr] has
    [version_ihl] at offset 0 and [next_proto_id] at offset 9;
    [rte_udp_hdr] is 8 bytes with [dst_port] at offset 2 and [dgram_len]
    at offset 4. *)
Definition RTE_ETHER_TYPE_IPV4 : Z := 2048.   (* 0x0800 *)
Definition IPPROTO_UDP : Z := 17.
Definition ETH_SIZE : Z := 14.
Definition IP_SIZE : Z := 20.
Definition UDP_SIZE : Z := 8.
Definition ETHER_TYPE_OFFSET : Z := 12.
Definition NEXT_PROTO_ID_OFFSET : Z := 9.
Definition VERSION_IHL_OFFSET : Z := 0.
Definition DST_PORT_OFFSET : Z := 2.
Definition DGRAM_LEN_OFFSET : Z := 4.

(** The pointers and values [process_packet] derives from a frame. *)
Definition ip_header (pkt : memory) : memory := ptr_add pkt ETH_SIZE.

(** [uint8_t ihl = (ip->version_ihl & 0x0F) * 4]. *)
Definition ip_header_length (pkt : memory) : Z :=
  (Z.land (load8 (ip_header pkt) VERSION_IHL_OFFSET) 15 * 4) mod 256.

Definition udp_header (pkt : memory) : memory :=
  ptr_add (ip_header pkt) (ip_header_length pkt).

Definition udp_payload (pkt : memory) : memory :=
  ptr_add (udp_header pkt) UDP_SIZE.

(** [size_t payload_len = rte_be_to_cpu_16(udp->dgram_len)
    - sizeof(rte_udp_hdr)]: the subtraction is done in [size_t]. *)
Definition udp_payload_len (pkt : memory) : Z :=
  wrap64 (rte_be_to_cpu_16 (load16 (udp_header pkt) DGRAM_LEN_OFFSET) - UDP_SIZE).

(** The header fields of a frame as they stand on the wire (network
    byte order), at the offsets [process_packet] reads them. *)
Definition be16 (m : memory) (off : Z) : Z :=
  256 * load8 m off + load8 m (off + 1).

Definition frame_ether_type (pkt : memory) : Z := be16 pkt ETHER_TYPE_OFFSET.

Definition frame_ip_protocol (pkt : memory) : Z :=
  load8 (ip_header pkt) NEXT_PROTO_ID_OFFSET.

Definition frame_udp_dst_port (pkt : memory) : Z :=
  be16 (udp_header pkt) DST_PORT_OFFSET.

Definition frame_udp_dgram_len (pkt : memory) : Z :=
  be16 (udp_header pkt) DGRAM_LEN_OFFSET.

(** An IPv4/UDP frame addressed to the configured port. *)
Definition addressed_to_receiver (cfg : Config) (pkt : memory) : Prop :=
  frame_ether_type pkt = RTE_ETHER_TYPE_IPV4 /\
  frame_ip_protocol pkt = IPPROTO_UDP /\
  frame_udp_dst_port pkt = udp_port cfg.

(** [BBOParserFast::parse(payload, payload_len, bbo_pool_, ts_ns, seq)]
    on the receiver's pool; yields the slot index or [None]. *)
Definition parse_into_pool {R : Type} (payload : memory) (len ts_ns seq : Z)
    : M R (option Z) :=
  pool <- gets bbo_pool_ ;;
  match parse RECEIVER_POOL_SIZE payload len pool ts_ns seq with
  | None => ret None
  | Some (idx, pool') => modify (with_pool pool') ;;; ret (Some idx)
  end.

(** [void DPDKReceiver::process_packet(rte_mbuf* pkt)]; [ts] is the
    value [rdtsc()] returns on entry and [pkt] the frame data. *)
Definition process_packet {R : Type} `{RingBuffer R} (ts : Z) (pkt : memory)
    : M R unit :=
  if negb (load16 pkt ETHER_TYPE_OFFSET =? rte_cpu_to_be_16 RTE_ETHER_TYPE_IPV4)
  then ret tt
  else if negb (load8 (ip_header pkt) NEXT_PROTO_ID_OFFSET =? IPPROTO_UDP)
  then ret tt
  else
    cfg <- gets config_ ;;
    if negb (rte_be_to_cpu_16 (load16 (udp_header pkt) DST_PORT_OFFSET)
             =? udp_port cfg)
    then ret tt
    else
      let payload := udp_payload pkt in
      let payload_len := udp_payload_len pkt in
      count_if_enabled count_packets_received ;;;
      ts_ns <- gets (fun r => cycles_to_ns (tsc_ r) ts) ;;
      seq <- next_sequence ;;
      bbo <- parse_into_pool payload payload_len ts_ns seq ;;
      match bbo with
      | Some idx =>
          fast <- gets (fun r => pool_ (bbo_pool_ r) idx) ;;
          convert_and_publish fast ;;;
          count_if_enabled count_packets_processed
      | None => count_if_enabled count_parse_errors
      end.

(** ** dpdk_receiver.cpp: warm-up *)

Definition BBO_SIZE : Z := 44.
Definition TOTAL_SIZE : Z := ETH_SIZE + IP_SIZE + UDP_SIZE + BBO_SIZE.

(** [create_dummy_packet()] when [rte_pktmbuf_alloc] and
    [rte_pktmbuf_append] both succeed: [buf] is the fresh buffer as
    allocated, the result the frame written into it. *)
Definition create_dummy_packet (cfg : Config) (buf : memory) : memory :=
  let data := memset buf 0 x00 TOTAL_SIZE in
  (* Ethernet header *)
  let data := store16 data ETHER_TYPE_OFFSET (rte_cpu_to_be_16 RTE_ETHER_TYPE_IPV4) in
  (* IP header *)
  let ip := ETH_SIZE in
  let data := store8 data (ip + VERSION_IHL_OFFSET) 69 in          (* 0x45 *)
  let data := store16 data (ip + 2) (rte_cpu_to_be_16 (IP_SIZE + UDP_SIZE + BBO_SIZE)) in
  let data := store8 data (ip + NEXT_PROTO_ID_OFFSET) IPPROTO_UDP in
  (* UDP header *)
  let udp := ETH_SIZE + IP_SIZE in
  let data := store16 data (udp + DST_PORT_OFFSET) (rte_cpu_to_be_16 (udp_port cfg)) in
  let data := store16 data (udp + DGRAM_LEN_OFFSET) (rte_cpu_to_be_16 (UDP_SIZE + BBO_SIZE)) in
  (* BBO payload *)
  let bbo := ETH_SIZE + IP_SIZE + UDP_SIZE in
  let data := store_bytes data bbo (list_byte_of_string "WARMUP  ") in
  let price := bswap32 1500000 in
  let shares := bswap32 100 in
  let spread := bswap32 1000 in
  let data := store32 data (bbo + 8) price in
  let data := store32 data (bbo + 12) shares in
  let data := store32 data (bbo + 16) price in
  let data := store32 data (bbo + 20) shares in
  let data := store32 data (bbo + 24) spread in
  data.

(** One iteration of the loop of [warm_dpdk_path]: [None] when
    [create_dummy_packet] returns null, otherwise the fresh buffer and
    the cycle counter read by [process_packet]. *)
Definition warm_one {R : Type} `{RingBuffer R} (alloc : option (memory * Z))
    : M R unit :=
  match alloc with
  | None => ret tt
  | Some (buf, ts) =>
      cfg <- gets config_ ;;
      process_packet ts (create_dummy_packet cfg buf)
  end.

(** [warm_dpdk_path(count)], one list element per iteration. *)
Fixpoint warm_dpdk_path {R : Type} `{RingBuffer R}
    (allocs : list (option (memory * Z))) : M R unit :=
  match allocs with
  | [] => ret tt
  | a :: rest => warm_one a ;;; warm_dpdk_path rest
  end.

(** A receiver after initialisation, with the default configuration. *)
Definition initial_receiver (ring : BoundedRing) : DPDKReceiver BoundedRing :=
  {| config_ := default_config; stats_ := zero_stats;
     tsc_ := {| cycles_to_ns := fun c => c |};
     bbo_pool_ := fresh_pool; ring_buffer_ := ring; sequence_ := 0 |}.

(** ** Concrete frames and receivers *)

(** A frame in a zeroed buffer with the given ethertype, IPv4 header of
    20 bytes carrying UDP, destination port, [dgram_len] field and
    payload. *)
Definition udp_frame (ether_type port dgram_len : Z) (payload : list byte)
    : memory :=
  let data : memory := fun _ => x00 in
  let data := store16 data ETHER_TYPE_OFFSET (rte_cpu_to_be_16 ether_type) in
  let data := store8 data (ETH_SIZE + VERSION_IHL_OFFSET) 69 in
  let data := store8 data (ETH_SIZE + NEXT_PROTO_ID_OFFSET) IPPROTO_UDP in
  let udp := ETH_SIZE + IP_SIZE in
  let data := store16 data (udp + DST_PORT_OFFSET) (rte_cpu_to_be_16 port) in
  let data := store16 data (udp + DGRAM_LEN_OFFSET) (rte_cpu_to_be_16 dgram_len) in
  store_bytes data (udp + UDP_SIZE) payload.

(** A datagram to port 12345 carrying the first 27 bytes of the AAPL
    payload. *)
Definition short_frame : memory :=
  udp_frame RTE_ETHER_TYPE_IPV4 12345 (UDP_SIZE + 27) (take 27 aapl_payload).

(** A datagram to port 12345 whose [dgram_len] field is 0. *)
Definition zero_length_frame : memory :=
  udp_frame RTE_ETHER_TYPE_IPV4 12345 0 aapl_payload.

(** An IPv6 frame (ethertype 0x86DD), and an IPv4/UDP datagram to port
    9999. *)
Definition ipv6_frame : memory :=
  udp_frame 34525 12345 (UDP_SIZE + 28) aapl_payload.

Definition other_port_frame : memory :=
  udp_frame RTE_ETHER_TYPE_IPV4 9999 (UDP_SIZE + 28) aapl_payload.

(** The default receiver with statistics switched off. *)
Definition quiet_receiver (ring : BoundedRing) : DPDKReceiver BoundedRing :=
  {| config_ := {| port_id := 0; queue_id := 0; udp_port := 12345;
                   lcore_id := -1; shm_name := "gateway";
                   enable_stats := false |};
     stats_ := zero_stats;
     tsc_ := {| cycles_to_ns := fun c => c |};
     bbo_pool_ := fresh_pool; ring_buffer_ := ring; sequence_ := 0 |}.

(** A freshly allocated packet buffer holding stale bytes. *)
Definition stale_buffer : memory := fun _ => xff.

Definition full_ring : BoundedRing := {| capacity := 0; entries := [] |}.
Definition empty_ring : BoundedRing := {| capacity := 16; entries := [] |}.

(** A pool whose counter stands at its last value before the wrap. *)
Definition pool_before_wrap : BBOPool :=
  {| pool_ := pool_ fresh_pool; head_ := UINT32_MOD - 1 |}.

(** ** Further operations of the same files *)

(** *** rdtsc.h *)

(** [rdtsc()]: the two 32-bit halves the instruction leaves in EDX:EAX,
    assembled as [((uint64_t)hi << 32) | lo]. *)
Definition rdtsc (hi lo : Z) : Z := Z.lor (Z.shiftl hi 32) lo.

(** *** bbo_data.h: the hardware-timestamp annex *)

Record FPGATimestamps : Type := mkFPGATimestamps {
  t1 : Z;                  (* uint32_t, all four *)
  t2 : Z;
  t3 : Z;
  t4 : Z;
  latency_a_us : float;
  latency_b_us : float;
  total_us : float
}.

(** The default constructor. *)
Definition no_timestamps : FPGATimestamps :=
  {| t1 := 0; t2 := 0; t3 := 0; t4 := 0;
     latency_a_us := 0%float; latency_b_us := 0%float; total_us := 0%float |}.

Definition NS_PER_CYCLE : float := 8%float.
Definition US_PER_NS : float := 0x1.0624dd2f1a9fcp-10%float.   (* 0.001 *)

(** [calculate_latencies()]: the differences are taken in [uint32_t]
    before the conversion to [double]. *)
Definition calculate_latencies (ts : FPGATimestamps) : FPGATimestamps :=
  let a := PrimFloat.mul
             (PrimFloat.mul (u32_to_double (wrap32 (t2 ts - t1 ts))) NS_PER_CYCLE)
             US_PER_NS in
  let b := PrimFloat.mul
             (PrimFloat.mul (u32_to_double (wrap32 (t4 ts - t3 ts))) NS_PER_CYCLE)
             US_PER_NS in
  {| t1 := t1 ts; t2 := t2 ts; t3 := t3 ts; t4 := t4 ts;
     latency_a_us := a; latency_b_us := b;
     total_us := PrimFloat.add a b |}.

(** *** bbo_parser_fast.h: the cold-path helpers *)

Definition T1_OFFSET : Z := 28.

(** [BBOParserFast::extract_timestamps(data, len)]. *)
Definition extract_timestamps (data : memory) (len : Z) : FPGATimestamps :=
  if len <? BBO_FULL_SIZE then no_timestamps
  else
    let tdata := ptr_add data T1_OFFSET in
    calculate_latencies
      {| t1 := bswap32 (load32 tdata 0);
         t2 := bswap32 (load32 tdata 4);
         t3 := bswap32 (load32 tdata 8);
         t4 := bswap32 (load32 tdata 12);
         latency_a_us := 0%float; latency_b_us := 0%float;
         total_us := 0%float |}.

(** The loop of [is_valid_bbo] from index [i], [count] iterations left:
    false at the first byte outside 0x20..0x7E. *)
Fixpoint printable_from (data : memory) (i : Z) (count : nat) : bool :=
  match count with
  | O => true
  | S c =>
      let ch := load8 data i in
      if (ch <? 32) || (126 <? ch) then false
      else printable_from data (i + 1) c
  end.

(** [BBOParserFast::is_valid_bbo(data, len)]. *)
Definition is_valid_bbo (data : memory) (len : Z) : bool :=
  if len <? BBO_MIN_SIZE then false else printable_from data 0 8.

(** The loop of [symbol_matches], [for (i = 0; i < target_len && i < 8;
    ++i)], from index [i]; eight iterations exhaust it. *)
Fixpoint symbol_matches_from (data target : memory) (target_len i : Z)
    (fuel : nat) : bool :=
  match fuel with
  | O => true
  | S f =>
      if (i <? target_len) && (i <? 8)
      then if negb (load8 data i =? load8 target i) then false
           else symbol_matches_from data target target_len (i + 1) f
      else true
  end.

(** [BBOParserFast::symbol_matches(data, target, target_len)]. *)
Definition symbol_matches (data target : memory) (target_len : Z) : bool :=
  symbol_matches_from data target target_len 0 8.

(** [parse_bbo(data, len, pool, ts_ns)]: [parse] with the default
    sequence number. *)
Definition parse_bbo (POOL_SIZE : Z) (data : memory) (len : Z) (pool : BBOPool)
    (ts_ns : Z) : option (Z * BBOPool) :=
  parse POOL_SIZE data len pool ts_ns 0.

(** The big-endian value of the four bytes at [off]. *)
Definition be32 (m : memory) (off : Z) : Z :=
  2 ^ 24 * load8 m off + 2 ^ 16 * load8 m (off + 1)
  + 2 ^ 8 * load8 m (off + 2) + load8 m (off + 3).

(** *** bbo_pool.h: construction *)

(** The loop of [prefault_pool], [pool_[i].clear()] from index [i]. *)
Fixpoint prefault_from (p : BBOPool) (i : Z) (count : nat) : BBOPool :=
  match count with
  | O => p
  | S c => prefault_from (store_slot p i (clear (pool_ p i))) (i + 1) c
  end.

Definition prefault_pool (POOL_SIZE : Z) (p : BBOPool) : BBOPool :=
  prefault_from p 0 (Z.to_nat POOL_SIZE).

(** The constructor on freshly allocated storage: [head_] starts at 0
    and every slot is cleared. *)
Definition new_pool (POOL_SIZE : Z) (storage : Z -> BBODataFast) : BBOPool :=
  prefault_pool POOL_SIZE {| pool_ := storage; head_ := 0 |}.

(** *** dpdk_receiver.h / dpdk_receiver.cpp: bursts and statistics *)

Definition BURST_SIZE : Z := 32.

(** [process_burst(pkts, count)]: each packet comes with the cycle
    counter value [process_packet] reads for it. The prefetches and the
    release of the buffer do not touch the receiver. *)
Fixpoint process_burst {R : Type} `{RingBuffer R} (pkts : list (Z * memory))
    : M R unit :=
  match pkts with
  | [] => ret tt
  | (ts, pkt) :: rest => process_packet ts pkt ;;; process_burst rest
  end.

(** The iterations of [poll_loop] up to the one that sees [running_]
    false: one list element per [rte_eth_rx_burst] result, processed
    when it is not empty. *)
Fixpoint poll_iterations {R : Type} `{RingBuffer R}
    (bursts : list (list (Z * memory))) : M R unit :=
  match bursts with
  | [] => ret tt
  | b :: rest =>
      (if (0 <? length b)%nat then process_burst b else ret tt) ;;;
      poll_iterations rest
  end.

(** [reset_stats()]. *)
Definition reset_stats {R : Type} : M R unit :=
  modify (with_stats (fun _ => zero_stats)).

(** The three header checks of [process_packet] as one test. *)
Definition accepts_frame (cfg : Config) (pkt : memory) : bool :=
  (frame_ether_type pkt =? RTE_ETHER_TYPE_IPV4)
  && (frame_ip_protocol pkt =? IPPROTO_UDP)
  && (frame_udp_dst_port pkt =? udp_port cfg).

(** The frames of a burst that pass the header checks, and those of
    them whose payload the parser takes. *)
Definition accepted_count (cfg : Config) (pkts : list (Z * memory)) : Z :=
  Z.of_nat (length (filter (fun p => accepts_frame cfg (snd p) = true) pkts)).

Definition parsed_count (cfg : Config) (pkts : list (Z * memory)) : Z :=
  Z.of_nat (length (filter
    (fun p => accepts_frame cfg (snd p)
              && (BBO_MIN_SIZE <=? udp_payload_len (snd p)) = true) pkts)).

(** The statistics balance: every received packet is either processed or
    a parse error, modulo the width of the counters. *)
Definition stats_balanced (s : Stats) : Prop :=
  wrap64 (packets_received s) = wrap64 (packets_processed s + parse_errors s).

(** A datagram to port 12345 carrying the 28-byte AAPL payload, and a
    warm-up run in which the second of three allocations fails. *)
Definition aapl_frame : memory :=
  udp_frame RTE_ETHER_TYPE_IPV4 12345 (UDP_SIZE + 28) aapl_payload.

Definition warm_up_run : list (option (memory * Z)) :=
  [Some (stale_buffer, 1); None; Some (stale_buffer, 2)].

Definition mixed_burst : list (Z * memory) :=
  [(1, aapl_frame); (2, short_frame); (3, ipv6_frame)].

(** * Properties *)

(** ** The parser *)

Lemma deref_store_slot (p : BBOPool) (idx : Z) (r : BBODataFast) :
  deref (idx, store_slot p idx r) = r.
Proof. unfold deref, store_slot; simpl. now rewrite Z.eqb_refl. Qed.

(** C1 (as amended). For the literal 28-byte payload of the minimal-parse
    scenario the parse succeeds, whatever the pool, timestamp and
    sequence number, and the populated record has trimmed symbol "AAPL",
    bid_price 150.0, bid_shares 100, ask_shares 100, spread 1.0,
    valid = 1 and flags = 0; its ask_price is the double 1500576 * 1e-4,
    printed 150.0576, because bytes 16..19 are 00 16 E5 A0 = 1500576. *)
Theorem minimal_parse_scenario (POOL_SIZE : Z) (pool : BBOPool) (ts_ns seq : Z) :
  exists res,
    parse POOL_SIZE (mem_of_list aapl_payload) 28 pool ts_ns seq = Some res /\
    get_symbol (deref res) = list_byte_of_string "AAPL" /\
    bid_price (deref res) = 150%float /\
    bid_shares (deref res) = 100 /\
    ask_price (deref res) = 0x1.2c1d7dbf487fdp+7%float /\
    ask_price (deref res) = PrimFloat.mul (u32_to_double 1500576) PRICE_MULTIPLIER /\
    ask_shares (deref res) = 100 /\
    spread (deref res) = 1%float /\
    valid (deref res) = 1 /\
    flags (deref res) = 0.
Proof.
  eexists. split.
  - unfold parse. simpl. reflexivity.
  - rewrite deref_store_slot. simpl. repeat split; reflexivity.
Qed.

(** C1 (as stated) fails: on the literal payload the parse does not give
    ask_price 150.1000. The record's ask_price is not the double 150.1,
    and it lies below 150.0625. *)
Lemma minimal_parse_ask_is_not_150_1 :
  ~ (exists res,
      parse 1024 (mem_of_list aapl_payload) 28 fresh_pool 0 0 = Some res /\
      get_symbol (deref res) = list_byte_of_string "AAPL" /\
      bid_price (deref res) = 150%float /\
      bid_shares (deref res) = 100 /\
      ask_price (deref res) = 0x1.2c33333333333p+7%float /\
      ask_shares (deref res) = 100 /\
      spread (deref res) = 1%float /\
      valid (deref res) = 1 /\
      flags (deref res) = 0).
Proof.
  intros (res & Hp & _ & _ & _ & Hask & _).
  unfold parse in Hp. simpl in Hp. injection Hp as <-.
  rewrite deref_store_slot in Hask. vm_compute in Hask. discriminate.
Qed.

Lemma parse_accepts (POOL_SIZE : Z) (data : memory) (len : Z) (pool : BBOPool)
    (ts_ns seq : Z) :
  BBO_MIN_SIZE <= len ->
  exists res, parse POOL_SIZE data len pool ts_ns seq = Some res /\
    fst res = fst (acquire POOL_SIZE pool) /\
    head_ (snd res) = wrap32 (head_ pool + 1) /\
    valid (deref res) = 1 /\
    flags (deref res) =
      (if BBO_FULL_SIZE <=? len then BboFlags.HAS_FPGA_TIMESTAMPS else 0) /\
    timestamp_ns (deref res) = ts_ns /\
    sequence (deref res) = seq.
Proof.
  intros Hlen. unfold parse.
  destruct (len <? BBO_MIN_SIZE) eqn:E; [apply Z.ltb_lt in E; lia|].
  simpl. eexists. split; [reflexivity|].
  rewrite deref_store_slot. simpl. repeat split; reflexivity.
Qed.

Lemma parse_rejects (POOL_SIZE : Z) (data : memory) (len : Z) (pool : BBOPool)
    (ts_ns seq : Z) :
  len < BBO_MIN_SIZE -> parse POOL_SIZE data len pool ts_ns seq = None.
Proof.
  intros Hlen. unfold parse.
  destruct (len <? BBO_MIN_SIZE) eqn:E; [reflexivity|].
  apply Z.ltb_ge in E. lia.
Qed.

(** C2. A payload of length 28..43 parses with the hardware-timestamp
    flag bit clear, and a payload of length 44 or more parses with the
    bit set; in both ranges the parse succeeds. *)
Theorem hw_timestamp_flag_by_length (POOL_SIZE : Z) (data : memory) (len : Z)
    (pool : BBOPool) (ts_ns seq : Z) :
  28 <= len ->
  exists res,
    parse POOL_SIZE data len pool ts_ns seq = Some res /\
    (len <= 43 ->
       Z.land (flags (deref res)) BboFlags.HAS_FPGA_TIMESTAMPS = 0) /\
    (44 <= len ->
       Z.land (flags (deref res)) BboFlags.HAS_FPGA_TIMESTAMPS = 1).
Proof.
  intros Hlen.
  destruct (parse_accepts POOL_SIZE data len pool ts_ns seq Hlen)
    as (res & Hp & _ & _ & _ & Hf & _).
  exists res. split; [exact Hp|]. rewrite Hf. unfold BBO_FULL_SIZE.
  split; intros H.
  - destruct (44 <=? len) eqn:E; [apply Z.leb_le in E; lia | reflexivity].
  - destruct (44 <=? len) eqn:E; [reflexivity | apply Z.leb_gt in E; lia].
Qed.

Lemma hw_timestamp_flag_by_length_witness :
  28 <= 30 /\
  exists res,
    parse 1024 (mem_of_list aapl_payload) 30 fresh_pool 0 0 = Some res /\
    (30 <= 43 ->
       Z.land (flags (deref res)) BboFlags.HAS_FPGA_TIMESTAMPS = 0) /\
    (44 <= 30 ->
       Z.land (flags (deref res)) BboFlags.HAS_FPGA_TIMESTAMPS = 1).
Proof.
  split; [lia|].
  apply (hw_timestamp_flag_by_length 1024 (mem_of_list aapl_payload) 30
           fresh_pool 0 0).
  lia.
Defined.

(** Loads only look at the bytes they cover. *)
Lemma load_bytes_ext (m1 m2 : memory) (n : nat) (off : Z) :
  (forall i, off <= i < off + Z.of_nat n -> m1 i = m2 i) ->
  load_bytes m1 off n = load_bytes m2 off n.
Proof.
  revert off. induction n as [|n IH]; intros off H; simpl; [reflexivity|].
  rewrite (H off) by lia. f_equal. apply IH. intros i Hi. apply H. lia.
Qed.

Lemma load32_ext (m1 m2 : memory) (off : Z) :
  (forall i, off <= i < off + 4 -> m1 i = m2 i) ->
  load32 m1 off = load32 m2 off.
Proof.
  intros H. unfold load32, load8.
  rewrite (H off), (H (off + 1)), (H (off + 2)), (H (off + 3)) by lia.
  reflexivity.
Qed.

Lemma parse_ext (POOL_SIZE : Z) (data1 data2 : memory) (len1 len2 : Z)
    (pool : BBOPool) (ts_ns seq : Z) :
  (forall i, 0 <= i < 28 -> data1 i = data2 i) ->
  (len1 <? BBO_MIN_SIZE) = (len2 <? BBO_MIN_SIZE) ->
  (BBO_FULL_SIZE <=? len1) = (BBO_FULL_SIZE <=? len2) ->
  parse POOL_SIZE data1 len1 pool ts_ns seq =
  parse POOL_SIZE data2 len2 pool ts_ns seq.
Proof.
  intros Hd Hmin Hfull. unfold parse. rewrite Hmin.
  destruct (len2 <? BBO_MIN_SIZE); [reflexivity|].
  simpl. unfold populate, memcpy. rewrite Hfull.
  rewrite (load_bytes_ext (ptr_add data1 SYMBOL_OFFSET)
             (ptr_add data2 SYMBOL_OFFSET) 8 0)
    by (intros i Hi; unfold ptr_add, SYMBOL_OFFSET; apply Hd; lia).
  assert (Hl : forall k, 0 <= k <= 16 ->
            load32 (ptr_add data1 BID_PRICE_OFFSET) k =
            load32 (ptr_add data2 BID_PRICE_OFFSET) k).
  { intros k Hk. apply load32_ext. intros i Hi.
    unfold ptr_add, BID_PRICE_OFFSET. apply Hd. lia. }
  rewrite !Hl by lia. reflexivity.
Qed.

(** C8. Two payloads of length at least 44 that agree on their first 44
    bytes, parsed with the same pool state, timestamp and sequence
    number, are both accepted and yield the same slot and the same pool
    contents, hence identical records: neither the bytes beyond offset
    44 nor the excess length influence the result. *)
Theorem parse_depends_on_first_44_bytes (POOL_SIZE : Z) (data1 data2 : memory)
    (len1 len2 : Z) (pool : BBOPool) (ts_ns seq : Z) :
  44 <= len1 -> 44 <= len2 ->
  (forall i, 0 <= i < 44 -> data1 i = data2 i) ->
  exists res,
    parse POOL_SIZE data1 len1 pool ts_ns seq = Some res /\
    parse POOL_SIZE data2 len2 pool ts_ns seq = Some res /\
    valid (deref res) = 1.
Proof.
  intros H1 H2 Hd.
  destruct (parse_accepts POOL_SIZE data1 len1 pool ts_ns seq)
    as (res & Hp & _ & _ & Hv & _); [unfold BBO_MIN_SIZE; lia|].
  exists res. split; [exact Hp|]. split; [|exact Hv].
  rewrite <- Hp. symmetry. apply parse_ext.
  - intros i Hi. apply Hd. lia.
  - unfold BBO_MIN_SIZE.
    destruct (len1 <? 28) eqn:E1; destruct (len2 <? 28) eqn:E2;
      try reflexivity;
      try apply Z.ltb_lt in E1; try apply Z.ltb_lt in E2; lia.
  - unfold BBO_FULL_SIZE.
    destruct (44 <=? len1) eqn:E1; destruct (44 <=? len2) eqn:E2;
      try reflexivity;
      try apply Z.leb_gt in E1; try apply Z.leb_gt in E2; lia.
Qed.

Lemma parse_depends_on_first_44_bytes_witness :
  let data1 := mem_of_list (aapl_payload ++ replicate 16 x01) in
  let data2 : memory := fun i => if i <? 44 then data1 i else xff in
  exists res,
    parse 1024 data1 44 fresh_pool 5 9 = Some res /\
    parse 1024 data2 60 fresh_pool 5 9 = Some res /\
    valid (deref res) = 1.
Proof.
  intros data1 data2.
  apply (parse_depends_on_first_44_bytes 1024 data1 data2 44 60 fresh_pool 5 9).
  - lia.
  - lia.
  - intros i Hi. unfold data2.
    destruct (i <? 44) eqn:E; [reflexivity | apply Z.ltb_ge in E; lia].
Defined.

(** ** Symbol round trip *)

Lemma rstrip_snoc_drop (p : byte -> bool) (l : list byte) (x : byte) :
  p x = true -> rstrip p (l ++ [x]) = rstrip p l.
Proof.
  intros Hx. induction l as [|b t IH]; simpl.
  - now rewrite Hx.
  - now rewrite IH.
Qed.

Lemma rstrip_snoc_keep (p : byte -> bool) (l : list byte) (x : byte) :
  p x = false -> rstrip p (l ++ [x]) = l ++ [x].
Proof.
  intros Hx. induction l as [|b t IH]; simpl.
  - now rewrite Hx.
  - rewrite IH. destruct t; reflexivity.
Qed.

Lemma rstrip_app_replicate (p : byte -> bool) (l : list byte) (x : byte) (k : nat) :
  p x = true -> rstrip p (l ++ replicate k x) = rstrip p l.
Proof.
  intros Hx. revert l. induction k as [|k IH]; intros l; simpl.
  - now rewrite app_nil_r.
  - change (x :: replicate k x) with ([x] ++ replicate k x).
    rewrite app_assoc, IH. now apply rstrip_snoc_drop.
Qed.

Lemma trimmed_len_le (sym : list byte) (n : nat) : (trimmed_len sym n <= n)%nat.
Proof.
  induction n as [|n IH]; simpl; [lia|].
  destruct (is_space_or_nul (nth n sym NUL)); lia.
Qed.

Lemma trimmed_len_app (l l' : list byte) (n : nat) :
  (n <= length l)%nat -> trimmed_len (l ++ l') n = trimmed_len l n.
Proof.
  induction n as [|n IH]; intros Hn; simpl; [reflexivity|].
  rewrite List.app_nth1 by lia. rewrite IH by lia. reflexivity.
Qed.

(** The trimming loop, started at the end of the array, computes
    [rstrip]. *)
Lemma take_trimmed_len (l : list byte) :
  take (trimmed_len l (length l)) l = rstrip is_space_or_nul l.
Proof.
  induction l as [|x l IH] using rev_ind; [reflexivity|].
  rewrite length_app. simpl length. rewrite Nat.add_1_r. simpl trimmed_len.
  rewrite List.app_nth2 by lia. rewrite Nat.sub_diag. simpl nth.
  destruct (is_space_or_nul x) eqn:Hx.
  - rewrite trimmed_len_app by lia.
    rewrite take_app_le by apply trimmed_len_le.
    rewrite IH. symmetry. now apply rstrip_snoc_drop.
  - rewrite take_ge by (rewrite length_app; simpl; lia).
    symmetry. now apply rstrip_snoc_keep.
Qed.

Lemma length_load_bytes (m : memory) (off : Z) (n : nat) :
  length (load_bytes m off n) = n.
Proof. revert off. induction n; intros; simpl; [reflexivity | now f_equal]. Qed.

Lemma pad_spaces_spec (count : nat) (sym : list byte) (from : nat) :
  (from + count = length sym)%nat ->
  pad_spaces sym from count = take from sym ++ replicate count SPACE.
Proof.
  revert sym from. induction count as [|c IH]; intros sym from H; simpl.
  - rewrite app_nil_r. symmetry. apply take_ge. lia.
  - rewrite IH by (rewrite length_insert; lia).
    rewrite (take_S_r _ from SPACE) by (apply list_lookup_insert_eq; lia).
    rewrite take_insert_ge by lia.
    now rewrite <- app_assoc.
Qed.

(** What [set_symbol] leaves in an 8-byte symbol array. *)
Lemma symbol_set_symbol (r : BBODataFast) (sym : memory) (len : Z) :
  length (symbol r) = 8%nat ->
  let n := Z.to_nat (Z.min len 8) in
  symbol (set_symbol r sym len) = load_bytes sym 0 n ++ replicate (8 - n) SPACE.
Proof.
  intros Hlen n. unfold set_symbol. simpl.
  assert (Hn : Z.to_nat (if len <? 8 then len else 8) = n).
  { unfold n. destruct (len <? 8) eqn:E;
      [apply Z.ltb_lt in E | apply Z.ltb_ge in E]; f_equal; lia. }
  rewrite Hn. assert (n <= 8)%nat by (unfold n; lia).
  rewrite pad_spaces_spec.
  - unfold memcpy. rewrite take_app_length'
      by (now rewrite length_load_bytes). reflexivity.
  - unfold memcpy. rewrite length_app, length_load_bytes, length_drop. lia.
Qed.

(** C7 (as amended). For every record with an 8-byte symbol array, every
    source buffer and every length, [set_symbol] followed by
    [get_symbol] yields the first min(len, 8) bytes of the source with
    its trailing spaces and NUL bytes stripped. *)
Theorem symbol_round_trip (r : BBODataFast) (sym : memory) (len : Z) :
  length (symbol r) = 8%nat ->
  get_symbol (set_symbol r sym len) =
  rstrip is_space_or_nul (load_bytes sym 0 (Z.to_nat (Z.min len 8))).
Proof.
  intros Hlen. unfold get_symbol.
  rewrite (symbol_set_symbol r sym len Hlen).
  set (n := Z.to_nat (Z.min len 8)).
  assert (n <= 8)%nat by (unfold n; lia).
  set (s := load_bytes sym 0 n ++ replicate (8 - n) SPACE).
  assert (Hs : length s = 8%nat).
  { unfold s. rewrite length_app, length_load_bytes, length_replicate. lia. }
  rewrite <- Hs at 1. rewrite take_trimmed_len. unfold s.
  now apply rstrip_app_replicate.
Qed.

Lemma symbol_round_trip_witness :
  length (symbol zero_record) = 8%nat /\
  get_symbol (set_symbol zero_record
                (mem_of_list (list_byte_of_string "MSFT  ")) 6) =
  list_byte_of_string "MSFT".
Proof.
  split; [reflexivity|].
  exact (symbol_round_trip zero_record
           (mem_of_list (list_byte_of_string "MSFT  ")) 6 eq_refl).
Defined.

(** C7 (as stated) fails: for the two-byte string 'A' NUL the round trip
    yields "A", which is not the string with only its trailing spaces
    stripped. *)
Lemma symbol_round_trip_strips_nul :
  get_symbol (set_symbol zero_record (mem_of_list [x41; x00]) 2) <>
  rstrip is_space (load_bytes (mem_of_list [x41; x00]) 0 (Z.to_nat (Z.min 2 8))).
Proof. vm_compute. discriminate. Qed.

(** ** The slot pool *)

Lemma pow2_divides_2_32 (k : Z) : 0 <= k <= 32 -> (2 ^ k | UINT32_MOD).
Proof.
  intros Hk. exists (2 ^ (32 - k)). unfold UINT32_MOD.
  rewrite <- Z.pow_add_r by lia. f_equal. lia.
Qed.

Lemma wrap32_mod_pow2 (k x : Z) : 0 <= k <= 32 -> wrap32 x mod 2 ^ k = x mod 2 ^ k.
Proof.
  intros Hk. unfold wrap32.
  apply Z.mod_mod_divide. now apply pow2_divides_2_32.
Qed.

(** The mask selects the counter modulo the pool size. *)
Lemma acquire_index (k : Z) (p : BBOPool) :
  0 <= k <= 32 -> fst (acquire (2 ^ k) p) = head_ p mod 2 ^ k.
Proof.
  intros Hk. unfold acquire. simpl.
  replace (2 ^ k - 1) with (Z.ones k) by (rewrite Z.ones_equiv; lia).
  rewrite Z.land_ones by lia. unfold wrap32.
  apply Z.mod_small.
  assert (0 <= head_ p mod 2 ^ k < 2 ^ k) by (apply Z.mod_pos_bound; lia).
  assert (2 ^ k <= UINT32_MOD)
    by (unfold UINT32_MOD; apply Z.pow_le_mono_r; lia).
  lia.
Qed.

(** Every power of two from 64 on passes the two static assertions. *)
Lemma pool_size_accepted_pow2 (k : Z) : 6 <= k -> pool_size_accepted (2 ^ k) = true.
Proof.
  intros Hk. unfold pool_size_accepted.
  replace (2 ^ k - 1) with (Z.ones k) by (rewrite Z.ones_equiv; lia).
  rewrite Z.land_ones by lia. rewrite Z.mod_same by (apply Z.pow_nonzero; lia).
  simpl. apply Z.leb_le. change 64 with (2 ^ 6).
  apply Z.pow_le_mono_r; lia.
Qed.

Lemma head_acquire (POOL_SIZE : Z) (p : BBOPool) :
  head_ (snd (acquire POOL_SIZE p)) = wrap32 (head_ p + 1).
Proof. reflexivity. Qed.

Lemma pool_acquire (POOL_SIZE : Z) (p : BBOPool) :
  pool_ (snd (acquire POOL_SIZE p)) = pool_ p.
Proof. reflexivity. Qed.

Lemma head_acquire_times (POOL_SIZE : Z) (n : nat) (p : BBOPool) :
  wrap32 (head_ (acquire_times POOL_SIZE n p)) = wrap32 (head_ p + Z.of_nat n).
Proof.
  revert p. induction n as [|n IH]; intros p.
  - simpl. now rewrite Z.add_0_r.
  - change (acquire_times POOL_SIZE (S n) p)
      with (acquire_times POOL_SIZE n (snd (acquire POOL_SIZE p))).
    rewrite IH, head_acquire. unfold wrap32.
    rewrite Zplus_mod_idemp_l. f_equal. lia.
Qed.

Lemma acquire_index_after (k : Z) (n : nat) (p : BBOPool) :
  0 <= k <= 32 ->
  fst (acquire (2 ^ k) (acquire_times (2 ^ k) n p)) =
  (head_ p + Z.of_nat n) mod 2 ^ k.
Proof.
  intros Hk. rewrite acquire_index by exact Hk.
  rewrite <- (wrap32_mod_pow2 k (head_ (acquire_times (2 ^ k) n p))) by exact Hk.
  rewrite head_acquire_times. now apply wrap32_mod_pow2.
Qed.

(** C4 (as amended). For a pool whose size is a power of two not
    exceeding 2^32, [acquire] is total and returns a slot
    index inside the pool; two consecutive acquires return indices [i]
    and [(i + 1) mod POOL_SIZE], also across the wrap of the 32-bit
    counter; after POOL_SIZE further acquires the same slot comes back;
    in particular on a 1024-slot pool acquire #1 and acquire #1025
    return the same slot. *)
Theorem acquire_round_robin (POOL_SIZE k : Z) (p : BBOPool) :
  0 <= k <= 32 -> POOL_SIZE = 2 ^ k ->
  let a1 := acquire POOL_SIZE p in
  let a2 := acquire POOL_SIZE (snd a1) in
  0 <= fst a1 < POOL_SIZE /\
  fst a2 = (fst a1 + 1) mod POOL_SIZE /\
  fst (acquire POOL_SIZE (acquire_times POOL_SIZE (Z.to_nat POOL_SIZE) p)) =
    fst a1 /\
  (forall q : BBOPool,
     fst (acquire 1024 (acquire_times 1024 1024 q)) = fst (acquire 1024 q)).
Proof.
  intros Hk ->. cbv zeta.
  assert (Hpos : 0 < 2 ^ k) by (apply Z.pow_pos_nonneg; lia).
  repeat split.
  - rewrite acquire_index by exact Hk. apply Z.mod_pos_bound; lia.
  - rewrite acquire_index by exact Hk. apply Z.mod_pos_bound; lia.
  - rewrite !acquire_index by exact Hk. rewrite head_acquire.
    rewrite wrap32_mod_pow2 by exact Hk.
    now rewrite Zplus_mod_idemp_l.
  - rewrite acquire_index_after by exact Hk.
    rewrite acquire_index by exact Hk.
    rewrite Z2Nat.id by lia.
    rewrite <- (Z.mul_1_l (2 ^ k)) at 1.
    apply Z.mod_add. lia.
  - intros q. change 1024 with (2 ^ 10).
    rewrite (acquire_index_after 10 _ q) by lia.
    rewrite acquire_index by lia.
    replace (Z.of_nat 1024) with (1 * 2 ^ 10) by reflexivity.
    apply Z.mod_add. lia.
Qed.

(** ** Wire fields *)

Lemma load8_range (m : memory) (off : Z) : 0 <= load8 m off < 256.
Proof.
  unfold load8. pose proof (Byte.to_N_bounded (m off)) as Hb. lia.
Qed.

Lemma load8_byte_of_Z (v : Z) : Z.of_N (Byte.to_N (byte_of_Z v)) = v mod 256.
Proof.
  unfold byte_of_Z.
  assert (Hr : 0 <= v mod 256 < 256) by (apply Z.mod_pos_bound; lia).
  destruct (Byte.of_N (Z.to_N (v mod 256))) as [b|] eqn:E.
  - apply Byte.to_of_N in E. rewrite E. lia.
  - apply Byte.of_N_None_iff in E. lia.
Qed.

(** A 16-bit field read natively and converted from network order is
    the big-endian value of its two bytes. *)
Lemma be16_decode (m : memory) (off : Z) :
  rte_be_to_cpu_16 (load16 m off) = be16 m off.
Proof.
  unfold rte_be_to_cpu_16, bswap16, load16, be16.
  pose proof (load8_range m off). pose proof (load8_range m (off + 1)).
  Z.div_mod_to_equations. lia.
Qed.

Lemma bswap16_range (x : Z) : 0 <= bswap16 x < 65536.
Proof. unfold bswap16. Z.div_mod_to_equations. lia. Qed.

Lemma bswap16_involutive (x : Z) : 0 <= x < 65536 -> bswap16 (bswap16 x) = x.
Proof. intros Hx. unfold bswap16. Z.div_mod_to_equations. lia. Qed.

Lemma load16_range (m : memory) (off : Z) : 0 <= load16 m off < 65536.
Proof.
  unfold load16.
  pose proof (load8_range m off). pose proof (load8_range m (off + 1)). lia.
Qed.

(** The comparison the source makes on the raw field against a
    converted constant is the comparison of the decoded field. *)
Lemma raw_field_eq_be (m : memory) (off v : Z) :
  0 <= v < 65536 ->
  (load16 m off =? rte_cpu_to_be_16 v) = (be16 m off =? v).
Proof.
  intros Hv. rewrite <- be16_decode. unfold rte_be_to_cpu_16, rte_cpu_to_be_16.
  pose proof (load16_range m off) as Hl.
  destruct (load16 m off =? bswap16 v) eqn:E1;
    destruct (bswap16 (load16 m off) =? v) eqn:E2; try reflexivity.
  - apply Z.eqb_eq in E1. apply Z.eqb_neq in E2.
    rewrite E1, bswap16_involutive in E2 by exact Hv. congruence.
  - apply Z.eqb_neq in E1. apply Z.eqb_eq in E2.
    rewrite <- E2, bswap16_involutive in E1 by exact Hl. congruence.
Qed.

(** ** The receive engine *)

Ltac run_receiver :=
  cbv beta iota delta
    [process_packet convert_and_publish parse_into_pool next_sequence
     count_if_enabled bind gets modify ret].

Ltac read_fields :=
  cbn [negb fst snd with_stats with_sequence with_pool with_ring
       config_ stats_ tsc_ bbo_pool_ ring_buffer_ sequence_];
  cbv beta zeta.

Section Receiver.
Context {R : Type} `{RingBuffer R}.

(** The three early returns of [process_packet]. *)
Lemma process_packet_filtered (r : DPDKReceiver R) (ts : Z) (pkt : memory) :
  frame_ether_type pkt <> RTE_ETHER_TYPE_IPV4 \/
  frame_ip_protocol pkt <> IPPROTO_UDP \/
  frame_udp_dst_port pkt <> udp_port (config_ r) ->
  process_packet ts pkt r = (tt, r).
Proof.
  intros Hf. run_receiver.
  rewrite raw_field_eq_be by (unfold RTE_ETHER_TYPE_IPV4; lia).
  rewrite be16_decode.
  fold (frame_ether_type pkt) (frame_ip_protocol pkt) (frame_udp_dst_port pkt).
  destruct (frame_ether_type pkt =? RTE_ETHER_TYPE_IPV4) eqn:E1; [|reflexivity].
  destruct (frame_ip_protocol pkt =? IPPROTO_UDP) eqn:E2; [|reflexivity].
  cbn [negb]. cbv beta.
  destruct (frame_udp_dst_port pkt =? udp_port (config_ r)) eqn:E3; [|reflexivity].
  apply Z.eqb_eq in E1, E2, E3. tauto.
Qed.

(** C6. A frame whose ethertype is not IPv4, or whose IP protocol is not
    UDP, or whose UDP destination port is not the configured one, leaves
    the receiver exactly as it was: [process_packet] returns before any
    parse or publish (pool and ring are untouched) and no statistics
    counter moves; in particular [packets_received] and [parse_errors]
    keep their values. *)
Theorem filtered_frame_changes_nothing (r : DPDKReceiver R) (ts : Z) (pkt : memory) :
  frame_ether_type pkt <> RTE_ETHER_TYPE_IPV4 \/
  frame_ip_protocol pkt <> IPPROTO_UDP \/
  frame_udp_dst_port pkt <> udp_port (config_ r) ->
  process_packet ts pkt r = (tt, r) /\
  stats_ (snd (process_packet ts pkt r)) = stats_ r /\
  bbo_pool_ (snd (process_packet ts pkt r)) = bbo_pool_ r /\
  ring_buffer_ (snd (process_packet ts pkt r)) = ring_buffer_ r /\
  sequence_ (snd (process_packet ts pkt r)) = sequence_ r.
Proof.
  intros Hf. rewrite (process_packet_filtered r ts pkt Hf).
  repeat split; reflexivity.
Qed.

Lemma addressed_checks (cfg : Config) (pkt : memory) :
  addressed_to_receiver cfg pkt ->
  (load16 pkt ETHER_TYPE_OFFSET =? rte_cpu_to_be_16 RTE_ETHER_TYPE_IPV4) = true /\
  (load8 (ip_header pkt) NEXT_PROTO_ID_OFFSET =? IPPROTO_UDP) = true /\
  (rte_be_to_cpu_16 (load16 (udp_header pkt) DST_PORT_OFFSET) =? udp_port cfg) = true.
Proof.
  intros (He & Hp & Hd).
  rewrite raw_field_eq_be by (unfold RTE_ETHER_TYPE_IPV4; lia).
  rewrite be16_decode.
  fold (frame_ether_type pkt) (frame_ip_protocol pkt) (frame_udp_dst_port pkt).
  rewrite He, Hp, Hd, !Z.eqb_refl. auto.
Qed.

(** An accepted frame whose payload the parser rejects. *)
Lemma process_packet_parse_failed (r : DPDKReceiver R) (ts : Z) (pkt : memory) :
  addressed_to_receiver (config_ r) pkt ->
  parse RECEIVER_POOL_SIZE (udp_payload pkt) (udp_payload_len pkt)
        (bbo_pool_ r) (cycles_to_ns (tsc_ r) ts) (sequence_ r) = None ->
  process_packet ts pkt r =
  (tt, {| config_ := config_ r;
          stats_ := if enable_stats (config_ r)
                    then count_parse_errors (count_packets_received (stats_ r))
                    else stats_ r;
          tsc_ := tsc_ r;
          bbo_pool_ := bbo_pool_ r;
          ring_buffer_ := ring_buffer_ r;
          sequence_ := wrap32 (sequence_ r + 1) |}).
Proof.
  intros Ha Hp. destruct (addressed_checks _ _ Ha) as (E1 & E2 & E3).
  destruct r as [cfg st tsc pool ring seq]. cbn [config_ bbo_pool_ tsc_ sequence_] in *.
  run_receiver. rewrite E1, E2. read_fields. rewrite E3. read_fields.
  destruct (enable_stats cfg) eqn:Es;
    read_fields; rewrite Hp; read_fields; rewrite ?Es; reflexivity.
Qed.

(** An accepted frame whose payload the parser accepts. *)
Lemma process_packet_parsed (r : DPDKReceiver R) (ts : Z) (pkt : memory)
    (idx : Z) (pool' : BBOPool) :
  addressed_to_receiver (config_ r) pkt ->
  parse RECEIVER_POOL_SIZE (udp_payload pkt) (udp_payload_len pkt)
        (bbo_pool_ r) (cycles_to_ns (tsc_ r) ts) (sequence_ r) = Some (idx, pool') ->
  let pub := try_publish (ring_buffer_ r) (to_gateway (pool_ pool' idx)) in
  process_packet ts pkt r =
  (tt, {| config_ := config_ r;
          stats_ := if enable_stats (config_ r)
                    then count_packets_processed
                           ((if fst pub then fun s => s else count_ring_buffer_full)
                              (count_packets_received (stats_ r)))
                    else stats_ r;
          tsc_ := tsc_ r;
          bbo_pool_ := pool';
          ring_buffer_ := snd pub;
          sequence_ := wrap32 (sequence_ r + 1) |}).
Proof.
  intros Ha Hp pub. destruct (addressed_checks _ _ Ha) as (E1 & E2 & E3).
  destruct r as [cfg st tsc pool ring seq].
  cbn [config_ bbo_pool_ tsc_ sequence_ ring_buffer_ stats_] in *.
  run_receiver. rewrite E1, E2. read_fields. rewrite E3. read_fields.
  destruct (enable_stats cfg) eqn:Es;
    read_fields; rewrite Hp; read_fields;
    fold pub; destruct pub as [ok ring']; destruct ok;
    do 3 (read_fields; rewrite ?Es); reflexivity.
Qed.

Lemma parse_some (POOL_SIZE : Z) (data : memory) (len : Z) (pool : BBOPool)
    (ts_ns seq : Z) :
  BBO_MIN_SIZE <= len ->
  let idx := fst (acquire POOL_SIZE pool) in
  parse POOL_SIZE data len pool ts_ns seq =
  Some (idx, store_slot (snd (acquire POOL_SIZE pool)) idx
               (populate (pool_ pool idx) data len ts_ns seq)).
Proof.
  intros Hlen idx. unfold parse.
  destruct (len <? BBO_MIN_SIZE) eqn:E; [apply Z.ltb_lt in E; lia|].
  reflexivity.
Qed.

Lemma pool_store_slot_same (p : BBOPool) (idx : Z) (rec : BBODataFast) :
  pool_ (store_slot p idx rec) idx = rec.
Proof. unfold store_slot; simpl. now rewrite Z.eqb_refl. Qed.

(** C3 (as amended). The parser returns the null sentinel for every
    payload shorter than 28 bytes, without touching the pool. When such
    a payload arrives in a frame addressed to the receiver,
    [process_packet] leaves pool (head counter and slots) and ring
    unchanged, advances the sequence counter by one, and, when
    statistics are enabled, increments [packets_received] and
    [parse_errors] by one each; with statistics disabled no counter
    moves. *)
Theorem short_payload_is_parse_error (r : DPDKReceiver R) (ts : Z) (pkt : memory) :
  addressed_to_receiver (config_ r) pkt ->
  udp_payload_len pkt < BBO_MIN_SIZE ->
  (forall POOL_SIZE data len pool ts_ns seq,
     len < BBO_MIN_SIZE -> parse POOL_SIZE data len pool ts_ns seq = None) /\
  process_packet ts pkt r =
  (tt, {| config_ := config_ r;
          stats_ := if enable_stats (config_ r)
                    then count_parse_errors (count_packets_received (stats_ r))
                    else stats_ r;
          tsc_ := tsc_ r;
          bbo_pool_ := bbo_pool_ r;
          ring_buffer_ := ring_buffer_ r;
          sequence_ := wrap32 (sequence_ r + 1) |}) /\
  parse_errors (count_parse_errors (count_packets_received (stats_ r))) =
    wrap64 (parse_errors (stats_ r) + 1) /\
  packets_received (count_parse_errors (count_packets_received (stats_ r))) =
    wrap64 (packets_received (stats_ r) + 1).
Proof.
  intros Ha Hlen. split; [|split; [|split; reflexivity]].
  - intros. now apply parse_rejects.
  - apply process_packet_parse_failed; [exact Ha|]. now apply parse_rejects.
Qed.

Lemma to_gateway_symbol (fast : BBODataFast) :
  length (symbol fast) = 8%nat ->
  gateway.symbol (to_gateway fast) = symbol fast ++ replicate 7 SPACE ++ [NUL].
Proof.
  intros Hlen. unfold to_gateway. cbn [gateway.symbol].
  destruct (symbol fast) as [|b0 [|b1 [|b2 [|b3 [|b4 [|b5 [|b6 [|b7 [|b8 t]]]]]]]]];
    try discriminate Hlen.
  reflexivity.
Qed.

(** C5 (as amended). [convert_and_publish] hands the ring a record whose
    16-byte symbol is the 8-byte symbol followed by seven spaces and a
    terminating NUL, whose prices, shares and spread are those of the
    fast record, whose timestamp is the fast timestamp cast to a signed
    64-bit integer, whose validity is [valid != 0], and whose
    hardware-timestamp fields are all zero. It calls [try_publish] once
    and returns nothing; the ring is left as [try_publish] left it;
    when [try_publish] answers false and statistics are enabled,
    [ring_buffer_full] goes up by one, and nothing else in the receiver
    changes. *)
Theorem convert_and_publish_behaviour (r : DPDKReceiver R) (fast : BBODataFast) :
  length (symbol fast) = 8%nat ->
  let g := to_gateway fast in
  let pub := try_publish (ring_buffer_ r) g in
  gateway.symbol g = symbol fast ++ replicate 7 SPACE ++ [NUL] /\
  gateway.bid_price g = bid_price fast /\
  gateway.ask_price g = ask_price fast /\
  gateway.bid_shares g = bid_shares fast /\
  gateway.ask_shares g = ask_shares fast /\
  gateway.spread g = spread fast /\
  gateway.timestamp_ns g = to_int64 (timestamp_ns fast) /\
  (0 <= timestamp_ns fast < 2 ^ 63 -> gateway.timestamp_ns g = timestamp_ns fast) /\
  gateway.valid g = negb (valid fast =? 0) /\
  (gateway.fpga_ts_t1 g = 0 /\ gateway.fpga_ts_t2 g = 0 /\
   gateway.fpga_ts_t3 g = 0 /\ gateway.fpga_ts_t4 g = 0 /\
   gateway.fpga_latency_a_us g = 0%float /\
   gateway.fpga_latency_b_us g = 0%float /\
   gateway.fpga_latency_us g = 0%float /\
   gateway.fpga_rx_timestamp g = 0 /\ gateway.fpga_tx_timestamp g = 0) /\
  convert_and_publish fast r =
  (tt, {| config_ := config_ r;
          stats_ := if negb (fst pub) && enable_stats (config_ r)
                    then count_ring_buffer_full (stats_ r)
                    else stats_ r;
          tsc_ := tsc_ r;
          bbo_pool_ := bbo_pool_ r;
          ring_buffer_ := snd pub;
          sequence_ := sequence_ r |}) /\
  ring_buffer_full (count_ring_buffer_full (stats_ r)) =
    wrap64 (ring_buffer_full (stats_ r) + 1).
Proof.
  intros Hlen g pub.
  split; [now apply to_gateway_symbol|].
  do 6 (split; [reflexivity|]).
  split.
  { intros Hts. unfold g, to_gateway, to_int64. cbn [gateway.timestamp_ns].
    destruct (timestamp_ns fast <? 2 ^ 63) eqn:E;
      [reflexivity | apply Z.ltb_ge in E; lia]. }
  split; [reflexivity|].
  split; [repeat split; reflexivity|].
  split; [|reflexivity].
  destruct r as [cfg st tsc pool ring seq]. cbn [ring_buffer_] in pub.
  run_receiver. read_fields. fold g. fold pub.
  destruct pub as [ok ring']. destruct ok; read_fields.
  - reflexivity.
  - destruct (enable_stats cfg); reflexivity.
Qed.

Lemma payload_len_wraps (pkt : memory) :
  frame_udp_dgram_len pkt < UDP_SIZE ->
  udp_payload_len pkt = UINT64_MOD + frame_udp_dgram_len pkt - UDP_SIZE.
Proof.
  unfold udp_payload_len, frame_udp_dgram_len. rewrite be16_decode.
  set (d := be16 (udp_header pkt) DGRAM_LEN_OFFSET).
  assert (0 <= d).
  { unfold d, be16.
    pose proof (load8_range (udp_header pkt) DGRAM_LEN_OFFSET).
    pose proof (load8_range (udp_header pkt) (DGRAM_LEN_OFFSET + 1)). lia. }
  unfold UDP_SIZE, wrap64, UINT64_MOD. intros Hd.
  change (2 ^ 64) with 18446744073709551616.
  Z.div_mod_to_equations. lia.
Qed.

(** C9. For a frame addressed to the receiver whose UDP [dgram_len]
    field decodes to less than 8, the payload length computed in
    [size_t] is [2^64 + dgram_len - 8], which is at least 44; the parser
    accepts it, and the slot it fills is marked valid with the
    hardware-timestamp flag set and is handed to the ring. *)
Theorem short_dgram_len_wraps_around (r : DPDKReceiver R) (ts : Z) (pkt : memory) :
  addressed_to_receiver (config_ r) pkt ->
  frame_udp_dgram_len pkt < 8 ->
  let r' := snd (process_packet ts pkt r) in
  let idx := fst (acquire RECEIVER_POOL_SIZE (bbo_pool_ r)) in
  let rec := pool_ (bbo_pool_ r') idx in
  udp_payload_len pkt = 2 ^ 64 + frame_udp_dgram_len pkt - 8 /\
  BBO_FULL_SIZE <= udp_payload_len pkt /\
  parse RECEIVER_POOL_SIZE (udp_payload pkt) (udp_payload_len pkt)
        (bbo_pool_ r) (cycles_to_ns (tsc_ r) ts) (sequence_ r)
    = Some (idx, bbo_pool_ r') /\
  valid rec = 1 /\
  flags rec = BboFlags.HAS_FPGA_TIMESTAMPS /\
  Z.land (flags rec) BboFlags.HAS_FPGA_TIMESTAMPS = 1 /\
  ring_buffer_ r' = snd (try_publish (ring_buffer_ r) (to_gateway rec)) /\
  gateway.valid (to_gateway rec) = true.
Proof.
  intros Ha Hd r' idx rec.
  pose proof (payload_len_wraps pkt Hd) as Hlen.
  assert (Hd0 : 0 <= frame_udp_dgram_len pkt).
  { unfold frame_udp_dgram_len, be16.
    pose proof (load8_range (udp_header pkt) DGRAM_LEN_OFFSET).
    pose proof (load8_range (udp_header pkt) (DGRAM_LEN_OFFSET + 1)). lia. }
  assert (Hfull : BBO_FULL_SIZE <= udp_payload_len pkt).
  { rewrite Hlen. unfold BBO_FULL_SIZE, UINT64_MOD, UDP_SIZE.
    change (2 ^ 64) with 18446744073709551616. lia. }
  assert (Hmin : BBO_MIN_SIZE <= udp_payload_len pkt)
    by (unfold BBO_MIN_SIZE, BBO_FULL_SIZE in *; lia).
  pose proof (parse_some RECEIVER_POOL_SIZE (udp_payload pkt)
                (udp_payload_len pkt) (bbo_pool_ r)
                (cycles_to_ns (tsc_ r) ts) (sequence_ r) Hmin) as Hp.
  cbv zeta in Hp. fold idx in Hp.
  pose proof (process_packet_parsed r ts pkt _ _ Ha Hp) as Hrun.
  cbv zeta in Hrun.
  assert (Hpool : bbo_pool_ r' =
            store_slot (snd (acquire RECEIVER_POOL_SIZE (bbo_pool_ r))) idx
              (populate (pool_ (bbo_pool_ r) idx) (udp_payload pkt)
                 (udp_payload_len pkt) (cycles_to_ns (tsc_ r) ts) (sequence_ r)))
    by (unfold r'; rewrite Hrun; reflexivity).
  assert (Hrec : rec =
            populate (pool_ (bbo_pool_ r) idx) (udp_payload pkt)
              (udp_payload_len pkt) (cycles_to_ns (tsc_ r) ts) (sequence_ r))
    by (unfold rec; rewrite Hpool; apply pool_store_slot_same).
  assert (Hflags : flags rec = BboFlags.HAS_FPGA_TIMESTAMPS).
  { rewrite Hrec. unfold populate. cbn [flags].
    destruct (BBO_FULL_SIZE <=? udp_payload_len pkt) eqn:E;
      [reflexivity | apply Z.leb_gt in E; lia]. }
  split; [exact Hlen|]. split; [exact Hfull|].
  split; [rewrite Hpool; exact Hp|].
  split; [rewrite Hrec; reflexivity|].
  split; [exact Hflags|].
  split; [rewrite Hflags; reflexivity|].
  split.
  - unfold r' at 1. rewrite Hrun. cbn [snd ring_buffer_].
    rewrite Hrec. rewrite pool_store_slot_same. reflexivity.
  - rewrite Hrec. reflexivity.
Qed.

(** *** The synthetic warm-up frame *)

Lemma dummy_header_length (cfg : Config) (buf : memory) :
  ip_header_length (create_dummy_packet cfg buf) = 20.
Proof. reflexivity. Qed.

Lemma dummy_dst_port_bytes (cfg : Config) (buf : memory) :
  load8 (udp_header (create_dummy_packet cfg buf)) DST_PORT_OFFSET
    = rte_cpu_to_be_16 (udp_port cfg) mod 256 /\
  load8 (udp_header (create_dummy_packet cfg buf)) (DST_PORT_OFFSET + 1)
    = (rte_cpu_to_be_16 (udp_port cfg) / 256) mod 256.
Proof.
  split.
  - rewrite <- load8_byte_of_Z. reflexivity.
  - rewrite <- load8_byte_of_Z. reflexivity.
Qed.

Lemma dummy_addressed (cfg : Config) (buf : memory) :
  0 <= udp_port cfg < 65536 ->
  addressed_to_receiver cfg (create_dummy_packet cfg buf).
Proof.
  intros Hport. split; [reflexivity|]. split; [reflexivity|].
  unfold frame_udp_dst_port, be16.
  destruct (dummy_dst_port_bytes cfg buf) as [-> ->].
  unfold rte_cpu_to_be_16, bswap16. Z.div_mod_to_equations. lia.
Qed.

Lemma dummy_payload_len (cfg : Config) (buf : memory) :
  udp_payload_len (create_dummy_packet cfg buf) = BBO_SIZE.
Proof. reflexivity. Qed.

Lemma dummy_record (cfg : Config) (buf : memory) (old : BBODataFast) (ts_ns seq : Z) :
  let rec := populate old (udp_payload (create_dummy_packet cfg buf))
               BBO_SIZE ts_ns seq in
  get_symbol rec = list_byte_of_string "WARMUP" /\
  take 8 (symbol rec) = list_byte_of_string "WARMUP  " /\
  bid_price rec = 150%float /\
  ask_price rec = 150%float /\
  bid_shares rec = 100 /\
  ask_shares rec = 100 /\
  spread rec = PrimFloat.mul (u32_to_double 1000) PRICE_MULTIPLIER /\
  valid rec = 1 /\
  flags rec = BboFlags.HAS_FPGA_TIMESTAMPS /\
  timestamp_ns rec = ts_ns /\
  sequence rec = seq /\
  gateway.symbol (to_gateway rec) =
    list_byte_of_string "WARMUP  " ++ replicate 7 SPACE ++ [NUL] /\
  gateway.valid (to_gateway rec) = true.
Proof. cbv zeta. repeat split; reflexivity. Qed.

(** The receiver after one warm-up iteration whose packet was created. *)
Lemma warm_one_created (r : DPDKReceiver R) (buf : memory) (ts : Z) :
  0 <= udp_port (config_ r) < 65536 ->
  let idx := fst (acquire RECEIVER_POOL_SIZE (bbo_pool_ r)) in
  let filled := populate (pool_ (bbo_pool_ r) idx)
                  (udp_payload (create_dummy_packet (config_ r) buf)) BBO_SIZE
                  (cycles_to_ns (tsc_ r) ts) (sequence_ r) in
  let pub := try_publish (ring_buffer_ r) (to_gateway filled) in
  warm_one (Some (buf, ts)) r =
  (tt, {| config_ := config_ r;
          stats_ := if enable_stats (config_ r)
                    then count_packets_processed
                           ((if fst pub then fun s => s else count_ring_buffer_full)
                              (count_packets_received (stats_ r)))
                    else stats_ r;
          tsc_ := tsc_ r;
          bbo_pool_ := store_slot (snd (acquire RECEIVER_POOL_SIZE (bbo_pool_ r)))
                         idx filled;
          ring_buffer_ := snd pub;
          sequence_ := wrap32 (sequence_ r + 1) |}).
Proof.
  intros Hport idx filled pub.
  set (pkt := create_dummy_packet (config_ r) buf).
  pose proof (dummy_addressed (config_ r) buf Hport) as Ha. fold pkt in Ha.
  assert (Hmin : BBO_MIN_SIZE <= udp_payload_len pkt)
    by (unfold pkt; rewrite dummy_payload_len; unfold BBO_MIN_SIZE, BBO_SIZE; lia).
  pose proof (parse_some RECEIVER_POOL_SIZE (udp_payload pkt)
                (udp_payload_len pkt) (bbo_pool_ r)
                (cycles_to_ns (tsc_ r) ts) (sequence_ r) Hmin) as Hp.
  cbv zeta in Hp. fold idx in Hp.
  pose proof (process_packet_parsed r ts pkt _ _ Ha Hp) as Hrun.
  cbv zeta in Hrun. rewrite pool_store_slot_same in Hrun.
  change (warm_one (Some (buf, ts)) r) with (process_packet ts pkt r).
  rewrite Hrun. unfold pkt. rewrite dummy_payload_len. reflexivity.
Qed.

Lemma warm_dpdk_path_cons (a : option (memory * Z))
    (rest : list (option (memory * Z))) (r : DPDKReceiver R) :
  warm_dpdk_path (a :: rest) r = warm_dpdk_path rest (snd (warm_one a r)).
Proof.
  cbn [warm_dpdk_path]. unfold bind at 1. now destruct (warm_one a r).
Qed.

(** The warm-up loop consumes one sequence number and one pool slot per
    packet it manages to create, and leaves the configuration alone. *)
Lemma warm_dpdk_path_consumes (allocs : list (option (memory * Z)))
    (r : DPDKReceiver R) :
  0 <= udp_port (config_ r) < 65536 ->
  let r' := snd (warm_dpdk_path allocs r) in
  let created :=
    Z.of_nat (length (filter (fun a => bool_decide (a <> None)) allocs)) in
  config_ r' = config_ r /\
  wrap32 (sequence_ r') = wrap32 (sequence_ r + created) /\
  wrap32 (head_ (bbo_pool_ r')) = wrap32 (head_ (bbo_pool_ r) + created).
Proof.
  revert r. induction allocs as [|a rest IH]; intros r Hport; cbv zeta.
  - cbn. rewrite !Z.add_0_r. auto.
  - rewrite warm_dpdk_path_cons.
    destruct a as [[buf ts]|].
    + rewrite (warm_one_created r buf ts Hport). cbn [snd].
      match goal with |- context [warm_dpdk_path rest ?r1] =>
        destruct (IH r1) as (Hc & Hs & Hh); [exact Hport|] end.
      cbn [config_ sequence_ bbo_pool_] in Hc, Hs, Hh. cbn [head_ store_slot] in Hh.
      rewrite head_acquire in Hh.
      rewrite Hc, Hs, Hh. rewrite filter_cons_True by (apply bool_decide_pack; discriminate).
      cbn [length]. unfold wrap32.
      rewrite !Zplus_mod_idemp_l. repeat split; f_equal; lia.
    + change (snd (warm_one None r)) with r.
      destruct (IH r Hport) as (Hc & Hs & Hh).
      rewrite filter_cons_False by (intros Hb; apply bool_decide_unpack in Hb; congruence).
      auto.
Qed.

(** C10 (as amended). A synthetic warm-up packet that could be created
    takes the full [process_packet] path: it consumes the next pool slot
    and the next sequence number; the slot holds a valid record with
    symbol "WARMUP", whose flags equal HAS_FPGA_TIMESTAMPS (the dummy
    payload is 44 bytes), the IS_SYNTHETIC bit being clear; the record,
    converted, is offered to the ring with [try_publish], so it enters
    the ring whenever the ring accepts it, with nothing but its symbol
    telling it from real traffic, and is dropped when the ring refuses
    it. When statistics are enabled, [packets_received] and
    [packets_processed] go up by one each, and [ring_buffer_full] goes
    up by one exactly when the ring refused the record; when statistics
    are disabled no counter moves, [ring_buffer_full] included. *)
Theorem warm_up_packet_is_processed_as_traffic (r : DPDKReceiver R)
    (buf : memory) (ts : Z) :
  0 <= udp_port (config_ r) < 65536 ->
  let r' := snd (warm_one (Some (buf, ts)) r) in
  let idx := fst (acquire RECEIVER_POOL_SIZE (bbo_pool_ r)) in
  let rec := pool_ (bbo_pool_ r') idx in
  let pub := try_publish (ring_buffer_ r) (to_gateway rec) in
  udp_payload_len (create_dummy_packet (config_ r) buf) = 44 /\
  head_ (bbo_pool_ r') = wrap32 (head_ (bbo_pool_ r) + 1) /\
  sequence_ r' = wrap32 (sequence_ r + 1) /\
  sequence rec = sequence_ r /\
  get_symbol rec = list_byte_of_string "WARMUP" /\
  valid rec = 1 /\
  flags rec = BboFlags.HAS_FPGA_TIMESTAMPS /\
  Z.land (flags rec) BboFlags.IS_SYNTHETIC = 0 /\
  gateway.symbol (to_gateway rec) =
    list_byte_of_string "WARMUP  " ++ replicate 7 SPACE ++ [NUL] /\
  gateway.valid (to_gateway rec) = true /\
  ring_buffer_ r' = snd pub /\
  stats_ r' =
    (if enable_stats (config_ r)
     then count_packets_processed
            ((if fst pub then fun s => s else count_ring_buffer_full)
               (count_packets_received (stats_ r)))
     else stats_ r) /\
  (enable_stats (config_ r) = true ->
   packets_received (stats_ r') = wrap64 (packets_received (stats_ r) + 1) /\
   packets_processed (stats_ r') = wrap64 (packets_processed (stats_ r) + 1)) /\
  (enable_stats (config_ r) = true ->
   ring_buffer_full (stats_ r') =
     (if fst pub then ring_buffer_full (stats_ r)
      else wrap64 (ring_buffer_full (stats_ r) + 1))) /\
  (enable_stats (config_ r) = false -> stats_ r' = stats_ r).
Proof.
  intros Hport r' idx rec pub.
  pose proof (warm_one_created r buf ts Hport) as Hrun. cbv zeta in Hrun.
  fold idx in Hrun.
  set (filled := populate (pool_ (bbo_pool_ r) idx)
                   (udp_payload (create_dummy_packet (config_ r) buf)) BBO_SIZE
                   (cycles_to_ns (tsc_ r) ts) (sequence_ r)) in Hrun.
  assert (Hr' : r' = snd (warm_one (Some (buf, ts)) r)) by reflexivity.
  rewrite Hrun in Hr'. cbn [snd] in Hr'.
  assert (Hrec : rec = filled).
  { unfold rec. rewrite Hr'. cbn [bbo_pool_]. apply pool_store_slot_same. }
  destruct (dummy_record (config_ r) buf (pool_ (bbo_pool_ r) idx)
              (cycles_to_ns (tsc_ r) ts) (sequence_ r))
    as (Hsym & _ & _ & _ & _ & _ & _ & Hvalid & Hflags & _ & Hseq & Hgsym & Hgvalid).
  fold filled in Hsym, Hvalid, Hflags, Hseq, Hgsym, Hgvalid.
  assert (Hstats : stats_ r' =
            (if enable_stats (config_ r)
             then count_packets_processed
                    ((if fst pub then fun s => s else count_ring_buffer_full)
                       (count_packets_received (stats_ r)))
             else stats_ r)).
  { unfold pub. rewrite Hrec. rewrite Hr'. reflexivity. }
  split; [reflexivity|].
  split; [rewrite Hr'; reflexivity|].
  split; [rewrite Hr'; reflexivity|].
  rewrite Hrec.
  split; [exact Hseq|]. split; [exact Hsym|]. split; [exact Hvalid|].
  split; [exact Hflags|]. split; [rewrite Hflags; reflexivity|].
  split; [exact Hgsym|]. split; [exact Hgvalid|].
  split; [unfold pub; rewrite Hrec, Hr'; reflexivity|].
  split; [exact Hstats|].
  split; [|split].
  - intros Hen. rewrite Hstats, Hen.
    destruct (fst pub); split; reflexivity.
  - intros Hen. rewrite Hstats, Hen.
    destruct (fst pub); reflexivity.
  - intros Hen. rewrite Hstats, Hen. reflexivity.
Qed.

End Receiver.

(** ** The claims on concrete inputs *)

Lemma acquire_round_robin_witness :
  0 <= 10 <= 32 /\ 1024 = 2 ^ 10 /\
  fst (acquire 1024 pool_before_wrap) = 1023 /\
  fst (acquire 1024 (snd (acquire 1024 pool_before_wrap))) = 0.
Proof.
  split; [lia|]. split; [reflexivity|].
  destruct (acquire_round_robin 1024 10 pool_before_wrap) as (_ & H2 & _);
    [lia | reflexivity |].
  split; [reflexivity|]. rewrite H2. reflexivity.
Defined.

(** C4 (as stated) fails for a power-of-two pool size above 2^32, which
    the static assertions accept: with 2^33 slots the index after
    2^32 - 1 is 0, not 2^32, because the counter is 32 bits wide. *)
Lemma acquire_wraps_early_on_huge_pool :
  let N := 2 ^ 33 in
  let a1 := acquire N pool_before_wrap in
  let a2 := acquire N (snd a1) in
  pool_size_accepted N = true /\
  fst a1 = 2 ^ 32 - 1 /\
  fst a2 = 0 /\
  fst a2 <> (fst a1 + 1) mod N.
Proof. vm_compute. repeat split; discriminate. Qed.

Lemma short_payload_is_parse_error_witness :
  addressed_to_receiver (config_ (initial_receiver empty_ring)) short_frame /\
  udp_payload_len short_frame < BBO_MIN_SIZE /\
  parse_errors (stats_ (snd (process_packet 0 short_frame
                               (initial_receiver empty_ring)))) = 1 /\
  head_ (bbo_pool_ (snd (process_packet 0 short_frame
                           (initial_receiver empty_ring)))) = 0.
Proof.
  assert (Ha : addressed_to_receiver (config_ (initial_receiver empty_ring))
                 short_frame) by (repeat split; reflexivity).
  assert (Hl : udp_payload_len short_frame < BBO_MIN_SIZE) by reflexivity.
  split; [exact Ha|]. split; [exact Hl|].
  destruct (short_payload_is_parse_error (initial_receiver empty_ring) 0
              short_frame Ha Hl) as (_ & Hrun & _).
  rewrite Hrun. split; reflexivity.
Defined.

(** C3 (as stated) fails: on a 27-byte payload, with the default
    configuration, [parse_errors] goes from 0 to 1 and the pool is
    untouched, but [packets_received] and the sequence counter change as
    well, so the receiver is not the old one with only [parse_errors]
    incremented. *)
Lemma short_payload_changes_more_than_parse_errors :
  let r := initial_receiver empty_ring in
  let r' := snd (process_packet 0 short_frame r) in
  parse_errors (stats_ r') = parse_errors (stats_ r) + 1 /\
  head_ (bbo_pool_ r') = head_ (bbo_pool_ r) /\
  packets_received (stats_ r') = 1 /\ packets_received (stats_ r) = 0 /\
  sequence_ r' = 1 /\ sequence_ r = 0 /\
  r' <> with_stats count_parse_errors r.
Proof.
  cbv zeta. do 6 (split; [reflexivity|]).
  intros Heq. apply (f_equal sequence_) in Heq. vm_compute in Heq. discriminate.
Qed.

Lemma convert_and_publish_behaviour_witness :
  length (symbol zero_record) = 8%nat /\
  ring_buffer_full
    (stats_ (snd (convert_and_publish zero_record (initial_receiver full_ring)))) = 1 /\
  gateway.symbol (to_gateway zero_record) =
    replicate 8 NUL ++ replicate 7 SPACE ++ [NUL].
Proof.
  split; [reflexivity|].
  destruct (convert_and_publish_behaviour (initial_receiver full_ring)
              zero_record eq_refl)
    as (Hsym & _ & _ & _ & _ & _ & _ & _ & _ & _ & Hrun & _).
  rewrite Hrun. split; [reflexivity | exact Hsym].
Defined.

(** C5 (as stated) fails on two counts. The function returns nothing:
    on a ring with room and on a full ring [try_publish] answers true
    and false, yet the value returned is the same, so no reading of it
    gives back the ring's answer. And with statistics disabled a refused
    publish leaves [ring_buffer_full] where it was. *)
Lemma convert_and_publish_returns_nothing :
  let g := to_gateway zero_record in
  fst (try_publish empty_ring g) = true /\
  fst (try_publish full_ring g) = false /\
  ~ (exists decode : unit -> bool,
       decode (fst (convert_and_publish zero_record (initial_receiver empty_ring)))
         = fst (try_publish empty_ring g) /\
       decode (fst (convert_and_publish zero_record (initial_receiver full_ring)))
         = fst (try_publish full_ring g)) /\
  ring_buffer_full
    (stats_ (snd (convert_and_publish zero_record (quiet_receiver full_ring)))) = 0.
Proof.
  cbv zeta. split; [reflexivity|]. split; [reflexivity|]. split; [|reflexivity].
  intros (decode & H1 & H2). vm_compute in H1, H2. congruence.
Qed.

Lemma filtered_frame_changes_nothing_witness :
  (frame_ether_type ipv6_frame <> RTE_ETHER_TYPE_IPV4 \/
   frame_ip_protocol ipv6_frame <> IPPROTO_UDP \/
   frame_udp_dst_port ipv6_frame <> udp_port (config_ (initial_receiver empty_ring))) /\
  process_packet 7 ipv6_frame (initial_receiver empty_ring)
    = (tt, initial_receiver empty_ring).
Proof.
  assert (Hf : frame_ether_type ipv6_frame <> RTE_ETHER_TYPE_IPV4 \/
               frame_ip_protocol ipv6_frame <> IPPROTO_UDP \/
               frame_udp_dst_port ipv6_frame
                 <> udp_port (config_ (initial_receiver empty_ring)))
    by (left; vm_compute; discriminate).
  split; [exact Hf|].
  exact (proj1 (filtered_frame_changes_nothing (initial_receiver empty_ring) 7
                  ipv6_frame Hf)).
Defined.

(** The port-filter scenario: a datagram to port 9999 at a receiver
    configured for 12345. *)
Example port_filter_scenario :
  process_packet 7 other_port_frame (initial_receiver empty_ring)
    = (tt, initial_receiver empty_ring).
Proof.
  apply process_packet_filtered.
  right; right. vm_compute. discriminate.
Qed.

Lemma short_dgram_len_wraps_around_witness :
  let r := initial_receiver empty_ring in
  let r' := snd (process_packet 0 zero_length_frame r) in
  addressed_to_receiver (config_ r) zero_length_frame /\
  frame_udp_dgram_len zero_length_frame < 8 /\
  udp_payload_len zero_length_frame = 2 ^ 64 - 8 /\
  valid (pool_ (bbo_pool_ r') 0) = 1 /\
  flags (pool_ (bbo_pool_ r') 0) = 1.
Proof.
  intros r r'.
  assert (Ha : addressed_to_receiver (config_ r) zero_length_frame)
    by (repeat split; reflexivity).
  assert (Hd : frame_udp_dgram_len zero_length_frame < 8) by reflexivity.
  split; [exact Ha|]. split; [exact Hd|].
  destruct (short_dgram_len_wraps_around r 0 zero_length_frame Ha Hd)
    as (Hlen & _ & _ & Hv & Hf & _).
  split; [exact Hlen|]. split; [exact Hv | exact Hf].
Defined.

Lemma warm_up_packet_is_processed_as_traffic_witness :
  let r := initial_receiver empty_ring in
  let r' := snd (warm_one (Some (stale_buffer, 42)) r) in
  0 <= udp_port (config_ r) < 65536 /\
  packets_received (stats_ r') = 1 /\
  packets_processed (stats_ r') = 1 /\
  Z.land (flags (pool_ (bbo_pool_ r') 0)) BboFlags.IS_SYNTHETIC = 0 /\
  length (entries (ring_buffer_ r')) = 1%nat.
Proof.
  intros r r'.
  assert (Hport : 0 <= udp_port (config_ r) < 65536) by (simpl; lia).
  split; [exact Hport|].
  destruct (warm_up_packet_is_processed_as_traffic r stale_buffer 42 Hport)
    as (_ & _ & _ & _ & _ & _ & _ & Hsyn & _ & _ & Hring & Hstats & _).
  unfold r'.
  split; [rewrite Hstats; reflexivity|].
  split; [rewrite Hstats; reflexivity|].
  split; [exact Hsyn|].
  rewrite Hring. reflexivity.
Defined.

(** C10 (as stated) fails: with a full ring a warm-up packet is counted
    but its record does not enter the ring ([ring_buffer_full] goes up
    instead), and with statistics disabled neither [packets_received]
    nor [packets_processed] moves. *)
Lemma warm_up_packet_dropped_or_uncounted :
  let dropped := snd (warm_one (Some (stale_buffer, 42)) (initial_receiver full_ring)) in
  let uncounted := snd (warm_one (Some (stale_buffer, 42)) (quiet_receiver empty_ring)) in
  (entries (ring_buffer_ dropped) = [] /\
   ring_buffer_full (stats_ dropped) = 1 /\
   packets_processed (stats_ dropped) = 1) /\
  (packets_received (stats_ uncounted) = 0 /\
   packets_processed (stats_ uncounted) = 0 /\
   length (entries (ring_buffer_ uncounted)) = 1%nat).
Proof. cbv zeta. repeat split; reflexivity. Qed.

(** With statistics disabled and the ring full the warm-up record is
    dropped without a trace in the counters: [ring_buffer_full] stays
    0, while slot and sequence number are consumed all the same. *)
Example warm_up_packet_dropped_silently :
  let r' := snd (warm_one (Some (stale_buffer, 42)) (quiet_receiver full_ring)) in
  fst (try_publish full_ring (to_gateway (pool_ (bbo_pool_ r') 0))) = false /\
  entries (ring_buffer_ r') = [] /\
  stats_ r' = zero_stats /\
  ring_buffer_full (stats_ r') = 0 /\
  sequence_ r' = 1 /\
  head_ (bbo_pool_ r') = 1.
Proof. cbv zeta. repeat split; reflexivity. Qed.

(** * Further properties *)

(** ** Byte order *)

Lemma be32_decode (m : memory) (off : Z) : bswap32 (load32 m off) = be32 m off.
Proof.
  unfold bswap32, load32, be32.
  pose proof (load8_range m off). pose proof (load8_range m (off + 1)).
  pose proof (load8_range m (off + 2)). pose proof (load8_range m (off + 3)).
  set (b0 := load8 m off) in *. set (b1 := load8 m (off + 1)) in *.
  set (b2 := load8 m (off + 2)) in *. set (b3 := load8 m (off + 3)) in *.
  change (2 ^ 8) with 256. change (2 ^ 16) with 65536.
  change (2 ^ 24) with 16777216.
  set (x := b0 + 256 * b1 + 65536 * b2 + 16777216 * b3).
  assert (E0 : x mod 256 = b0)
    by (symmetry; apply (Z.mod_unique x 256 (b1 + 256 * b2 + 65536 * b3));
        unfold x; lia).
  assert (D1 : x / 256 = b1 + 256 * b2 + 65536 * b3)
    by (symmetry; apply (Z.div_unique x 256 _ b0); unfold x; lia).
  assert (D2 : x / 65536 = b2 + 256 * b3)
    by (symmetry; apply (Z.div_unique x 65536 _ (b0 + 256 * b1)); unfold x; lia).
  assert (D3 : x / 16777216 = b3)
    by (symmetry;
        apply (Z.div_unique x 16777216 _ (b0 + 256 * b1 + 65536 * b2));
        unfold x; lia).
  assert (E1 : (x / 256) mod 256 = b1)
    by (rewrite D1; symmetry; apply (Z.mod_unique _ 256 (b2 + 256 * b3)); lia).
  assert (E2 : (x / 65536) mod 256 = b2)
    by (rewrite D2; symmetry; apply (Z.mod_unique _ 256 b3); lia).
  assert (E3 : (x / 16777216) mod 256 = b3)
    by (rewrite D3; apply Z.mod_small; lia).
  rewrite E0, E1, E2, E3. lia.
Qed.

Lemma be32_range (m : memory) (off : Z) : 0 <= be32 m off < 2 ^ 32.
Proof.
  unfold be32.
  pose proof (load8_range m off). pose proof (load8_range m (off + 1)).
  pose proof (load8_range m (off + 2)). pose proof (load8_range m (off + 3)).
  change (2 ^ 8) with 256. change (2 ^ 16) with 65536.
  change (2 ^ 24) with 16777216. change (2 ^ 32) with 4294967296. lia.
Qed.

Lemma nth_load_bytes (m : memory) (n k : nat) (off : Z) (d : byte) :
  (k < n)%nat -> nth k (load_bytes m off n) d = m (off + Z.of_nat k).
Proof.
  revert k off. induction n as [|n IH]; intros k off Hk; [lia|].
  destruct k as [|k]; simpl load_bytes; simpl nth.
  - f_equal. lia.
  - rewrite IH by lia. f_equal. lia.
Qed.

(** ** The parser: decoding and footprint *)

(** X1. An accepted payload is decoded big-endian: the share counts are
    the 32-bit big-endian values at offsets 12 and 20, each below 2^32,
    the prices and the spread are the big-endian values at offsets 8, 16
    and 24 converted to double and multiplied by 1e-4, and the first
    eight bytes of the slot's symbol are the first eight payload bytes. *)
Theorem parse_decodes_big_endian (POOL_SIZE : Z) (data : memory) (len : Z)
    (pool : BBOPool) (ts_ns seq : Z) :
  28 <= len ->
  exists res,
    parse POOL_SIZE data len pool ts_ns seq = Some res /\
    take 8 (symbol (deref res)) = load_bytes data 0 8 /\
    bid_shares (deref res) = be32 data 12 /\
    ask_shares (deref res) = be32 data 20 /\
    0 <= bid_shares (deref res) < 2 ^ 32 /\
    0 <= ask_shares (deref res) < 2 ^ 32 /\
    bid_price (deref res)
      = PrimFloat.mul (u32_to_double (be32 data 8)) PRICE_MULTIPLIER /\
    ask_price (deref res)
      = PrimFloat.mul (u32_to_double (be32 data 16)) PRICE_MULTIPLIER /\
    spread (deref res)
      = PrimFloat.mul (u32_to_double (be32 data 24)) PRICE_MULTIPLIER.
Proof.
  intros Hlen. eexists. split; [apply parse_some; exact Hlen|].
  rewrite deref_store_slot. unfold populate.
  cbn [symbol bid_shares ask_shares bid_price ask_price spread].
  rewrite !be32_decode.
  change (be32 (ptr_add data BID_PRICE_OFFSET) 0) with (be32 data 8).
  change (be32 (ptr_add data BID_PRICE_OFFSET) 4) with (be32 data 12).
  change (be32 (ptr_add data BID_PRICE_OFFSET) 8) with (be32 data 16).
  change (be32 (ptr_add data BID_PRICE_OFFSET) 12) with (be32 data 20).
  change (be32 (ptr_add data BID_PRICE_OFFSET) 16) with (be32 data 24).
  split.
  { unfold memcpy. rewrite take_app_length' by (now rewrite length_load_bytes).
    apply load_bytes_ext. intros i _. unfold ptr_add, SYMBOL_OFFSET. f_equal. }
  pose proof (be32_range data 12). pose proof (be32_range data 20).
  repeat split; try reflexivity; lia.
Qed.

Lemma parse_decodes_big_endian_witness :
  28 <= 28 /\
  exists res,
    parse 1024 (mem_of_list aapl_payload) 28 fresh_pool 0 0 = Some res /\
    bid_shares (deref res) = be32 (mem_of_list aapl_payload) 12.
Proof.
  split; [lia|].
  destruct (parse_decodes_big_endian 1024 (mem_of_list aapl_payload) 28
              fresh_pool 0 0) as (res & Hp & _ & Hb & _); [lia|].
  exists res. split; [exact Hp | exact Hb].
Defined.

(** X2. A successful parse writes one slot only: every other slot of the
    pool keeps its contents, the padding bytes of the written slot are
    kept, and the head counter advances by one modulo 2^32. *)
Theorem parse_writes_one_slot (POOL_SIZE : Z) (data : memory) (len : Z)
    (pool : BBOPool) (ts_ns seq : Z) (res : Z * BBOPool) :
  parse POOL_SIZE data len pool ts_ns seq = Some res ->
  (forall j, j <> fst res -> pool_ (snd res) j = pool_ pool j) /\
  padding (deref res) = padding (pool_ pool (fst res)) /\
  head_ (snd res) = wrap32 (head_ pool + 1) /\
  fst res = fst (acquire POOL_SIZE pool).
Proof.
  unfold parse. destruct (len <? BBO_MIN_SIZE); [discriminate|].
  cbn. intros [= <-]. cbn [fst snd].
  split; [|split; [|split]]; try reflexivity.
  - intros j Hj. unfold store_slot. cbn [pool_].
    destruct (j =? _) eqn:E; [apply Z.eqb_eq in E; contradiction | reflexivity].
  - rewrite deref_store_slot. reflexivity.
Qed.

Lemma parse_writes_one_slot_witness :
  exists res,
    parse 1024 (mem_of_list aapl_payload) 28 fresh_pool 0 0 = Some res /\
    pool_ (snd res) 1 = pool_ fresh_pool 1 /\
    head_ (snd res) = 1.
Proof.
  eexists. split; [reflexivity|].
  destruct (parse_writes_one_slot 1024 (mem_of_list aapl_payload) 28
              fresh_pool 0 0 _ eq_refl) as (Hother & _ & Hhead & _).
  split; [apply Hother; discriminate | exact Hhead].
Defined.

(** ** Validation and symbol matching *)

Lemma printable_from_iff (data : memory) (n : nat) (i : Z) :
  printable_from data i n = true <->
  (forall j, i <= j < i + Z.of_nat n -> 32 <= load8 data j <= 126).
Proof.
  revert i. induction n as [|n IH]; intros i.
  - simpl. split; [intros _ j Hj; lia | reflexivity].
  - cbn [printable_from]. cbv zeta.
    destruct ((load8 data i <? 32) || (126 <? load8 data i)) eqn:E.
    + split; [discriminate|]. intros Hall.
      specialize (Hall i ltac:(lia)).
      apply orb_true_iff in E. destruct E as [E|E]; apply Z.ltb_lt in E; lia.
    + apply orb_false_iff in E. destruct E as [E1 E2].
      apply Z.ltb_ge in E1, E2. rewrite IH. split.
      * intros Hall j Hj. destruct (Z.eq_dec j i) as [->|Hne]; [lia|].
        apply Hall. lia.
      * intros Hall j Hj. apply Hall. lia.
Qed.

(** X3. [is_valid_bbo] answers true exactly when the payload has at
    least 28 bytes and each of its first eight bytes lies in
    0x20..0x7E; the price and share fields are not looked at. *)
Theorem is_valid_bbo_iff (data : memory) (len : Z) :
  is_valid_bbo data len = true <->
  28 <= len /\ (forall i, 0 <= i < 8 -> 32 <= load8 data i <= 126).
Proof.
  unfold is_valid_bbo, BBO_MIN_SIZE.
  destruct (len <? 28) eqn:E.
  - apply Z.ltb_lt in E. split; [discriminate | lia].
  - apply Z.ltb_ge in E. rewrite printable_from_iff. simpl Z.of_nat.
    split; [intros H; split; [lia | exact H] | intros [_ H]; exact H].
Qed.

Lemma in_load_bytes (m : memory) (n : nat) (off : Z) (b : byte) :
  In b (load_bytes m off n) ->
  exists j, off <= j < off + Z.of_nat n /\ b = m j.
Proof.
  revert off. induction n as [|n IH]; intros off; simpl; [tauto|].
  intros [<-|Hin].
  - exists off. split; [lia | reflexivity].
  - destruct (IH _ Hin) as (j & Hj & ->). exists j. split; [lia | reflexivity].
Qed.

Lemma rstrip_ext (p q : byte -> bool) (l : list byte) :
  (forall b, In b l -> p b = q b) -> rstrip p l = rstrip q l.
Proof.
  induction l as [|b t IH]; intros H; [reflexivity|].
  simpl. rewrite IH by (intros c Hc; apply H; now right).
  rewrite (H b) by (now left). reflexivity.
Qed.

(** The trimmed symbol only depends on the first eight bytes of the
    symbol array. *)
Lemma get_symbol_of_prefix (r : BBODataFast) (l rest : list byte) :
  symbol r = l ++ rest -> length l = 8%nat ->
  get_symbol r = rstrip is_space_or_nul l.
Proof.
  intros Hs Hl. unfold get_symbol. rewrite Hs.
  rewrite trimmed_len_app by lia.
  rewrite take_app_le by (rewrite Hl; apply trimmed_len_le).
  rewrite <- Hl. apply take_trimmed_len.
Qed.

(** X4. A payload that passes [is_valid_bbo] is accepted by [parse], and
    the trimmed symbol of the record is then the eight symbol bytes with
    their trailing spaces removed: no byte is lost to the NUL trimming
    of [get_symbol]. *)
Theorem validated_payload_symbol (POOL_SIZE : Z) (data : memory) (len : Z)
    (pool : BBOPool) (ts_ns seq : Z) :
  is_valid_bbo data len = true ->
  exists res,
    parse POOL_SIZE data len pool ts_ns seq = Some res /\
    get_symbol (deref res) = rstrip is_space (load_bytes data 0 8).
Proof.
  intros Hv. unfold is_valid_bbo in Hv.
  destruct (len <? BBO_MIN_SIZE) eqn:El; [discriminate|].
  apply Z.ltb_ge in El. unfold BBO_MIN_SIZE in El.
  pose proof (proj1 (printable_from_iff data 8 0) Hv) as Hpr.
  assert (Hlen : 28 <= len) by lia.
  eexists. split; [apply parse_some; exact Hlen|].
  rewrite deref_store_slot.
  set (old := pool_ pool (fst (acquire POOL_SIZE pool))).
  assert (Hsym : symbol (populate old data len ts_ns seq)
                 = load_bytes data 0 8 ++ drop 8 (symbol old)).
  { reflexivity. }
  rewrite (get_symbol_of_prefix _ _ _ Hsym (length_load_bytes data 0 8)).
  apply rstrip_ext. intros b Hb.
  apply in_load_bytes in Hb. destruct Hb as (j & Hj & ->).
  unfold is_space_or_nul, is_space.
  destruct (Byte.eqb (data j) NUL) eqn:E; [|now rewrite orb_false_r].
  apply Byte.byte_dec_bl in E.
  specialize (Hpr j ltac:(simpl in Hj; lia)).
  unfold load8 in Hpr. rewrite E in Hpr. simpl in Hpr. lia.
Qed.

Lemma validated_payload_symbol_witness :
  is_valid_bbo (mem_of_list aapl_payload) 28 = true /\
  exists res,
    parse 1024 (mem_of_list aapl_payload) 28 fresh_pool 0 0 = Some res /\
    get_symbol (deref res) = list_byte_of_string "AAPL".
Proof.
  split; [reflexivity|].
  exact (validated_payload_symbol 1024 (mem_of_list aapl_payload) 28
           fresh_pool 0 0 eq_refl).
Defined.

Lemma symbol_matches_from_iff (data target : memory) (target_len : Z)
    (fuel : nat) (i : Z) :
  symbol_matches_from data target target_len i fuel = true <->
  (forall j, i <= j < Z.min target_len 8 -> j < i + Z.of_nat fuel ->
             load8 data j = load8 target j).
Proof.
  revert i. induction fuel as [|f IH]; intros i.
  - simpl. split; [intros _ j Hj Hf; lia | reflexivity].
  - cbn [symbol_matches_from].
    destruct ((i <? target_len) && (i <? 8)) eqn:Ec.
    + apply andb_true_iff in Ec. destruct Ec as [E1 E2].
      apply Z.ltb_lt in E1, E2.
      destruct (load8 data i =? load8 target i) eqn:Eb; cbn [negb].
      * apply Z.eqb_eq in Eb. rewrite IH. split.
        -- intros Hall j Hj Hf. destruct (Z.eq_dec j i) as [->|Hne];
             [exact Eb | apply Hall; lia].
        -- intros Hall j Hj Hf. apply Hall; lia.
      * apply Z.eqb_neq in Eb. split; [discriminate|].
        intros Hall. exfalso. apply Eb. apply Hall; lia.
    + split; [|reflexivity]. intros _ j Hj Hf.
      apply andb_false_iff in Ec.
      destruct Ec as [E|E]; apply Z.ltb_ge in E; lia.
Qed.

(** X5. [symbol_matches] answers true exactly when the payload and the
    target agree on their first min(target_len, 8) bytes: an empty
    target matches everything, and target bytes beyond the eighth are
    never compared. *)
Theorem symbol_matches_iff (data target : memory) (target_len : Z) :
  symbol_matches data target target_len = true <->
  (forall i, 0 <= i < Z.min target_len 8 -> load8 data i = load8 target i).
Proof.
  unfold symbol_matches. rewrite symbol_matches_from_iff. simpl Z.of_nat.
  split; intros Hall j Hj; [apply Hall; lia | intros _; apply Hall; lia].
Qed.

(** X6. After [set_symbol(s, len)] on a record with an 8-byte symbol
    array, [symbol_matches] of the stored symbol against [s] with the
    same length answers true. *)
Theorem set_symbol_then_matches (r : BBODataFast) (s : memory) (len : Z) :
  length (symbol r) = 8%nat ->
  symbol_matches (mem_of_list (symbol (set_symbol r s len))) s len = true.
Proof.
  intros Hlen. unfold symbol_matches. apply symbol_matches_from_iff.
  intros i Hi _.
  rewrite (symbol_set_symbol r s len Hlen). cbv zeta.
  unfold load8, mem_of_list.
  destruct (i <? 0) eqn:E; [apply Z.ltb_lt in E; lia|].
  rewrite List.app_nth1 by (rewrite length_load_bytes; lia).
  rewrite nth_load_bytes by lia.
  do 2 f_equal. f_equal. lia.
Qed.

Lemma set_symbol_then_matches_witness :
  length (symbol zero_record) = 8%nat /\
  symbol_matches
    (mem_of_list (symbol (set_symbol zero_record
                            (mem_of_list (list_byte_of_string "GOOGL")) 5)))
    (mem_of_list (list_byte_of_string "GOOGL")) 5 = true.
Proof.
  split; [reflexivity|].
  exact (set_symbol_then_matches zero_record
           (mem_of_list (list_byte_of_string "GOOGL")) 5 eq_refl).
Defined.

(** ** The trimmed symbol *)

Lemma trimmed_len_stop (sym : list byte) (len n : nat) :
  trimmed_len sym len = S n -> is_space_or_nul (nth n sym NUL) = false.
Proof.
  induction len as [|m IH]; simpl; [discriminate|].
  destruct (is_space_or_nul (nth m sym NUL)) eqn:E; [exact IH|].
  intros [= <-]. exact E.
Qed.

(** X7. For every record, [get_symbol] returns a prefix of the symbol
    array of at most eight bytes whose last byte, if there is one, is
    neither a space nor a NUL; an array of spaces and NULs only gives
    the empty string. *)
Theorem get_symbol_shape (r : BBODataFast) :
  (length (get_symbol r) <= 8)%nat /\
  (exists rest, symbol r = get_symbol r ++ rest) /\
  (forall b, last (get_symbol r) = Some b -> is_space_or_nul b = false) /\
  ((forall b, In b (take 8 (symbol r)) -> is_space_or_nul b = true) ->
   get_symbol r = []).
Proof.
  unfold get_symbol.
  pose proof (trimmed_len_le (symbol r) 8) as Hle.
  split; [rewrite length_take; lia|].
  split; [exists (drop (trimmed_len (symbol r) 8) (symbol r));
          symmetry; apply take_drop|].
  split.
  - intros b Hlast.
    destruct (trimmed_len (symbol r) 8) as [|n] eqn:E; [discriminate|].
    pose proof (trimmed_len_stop _ _ _ E) as Hstop.
    destruct (Nat.lt_ge_cases n (length (symbol r))) as [Hn|Hn].
    + rewrite last_lookup, length_take in Hlast.
      replace (Init.Nat.pred (S n `min` length (symbol r))) with n in Hlast by lia.
      rewrite lookup_take_lt in Hlast by lia.
      rewrite (nth_lookup_Some _ _ NUL _ Hlast) in Hstop. exact Hstop.
    + rewrite List.nth_overflow in Hstop by lia. discriminate.
  - intros Hall.
    destruct (trimmed_len (symbol r) 8) as [|n] eqn:E; [reflexivity|].
    pose proof (trimmed_len_stop _ _ _ E) as Hstop.
    destruct (Nat.lt_ge_cases n (length (symbol r))) as [Hn|Hn].
    + destruct (lookup_lt_is_Some_2 _ _ Hn) as [x Hx].
      rewrite (nth_lookup_Some _ _ NUL _ Hx) in Hstop.
      rewrite Hall in Hstop; [discriminate|].
      apply list_elem_of_In. apply list_elem_of_lookup. exists n.
      rewrite lookup_take_lt by lia. exact Hx.
    + rewrite List.nth_overflow in Hstop by lia. discriminate.
Qed.

Lemma rstrip_idempotent (p : byte -> bool) (l : list byte) :
  rstrip p (rstrip p l) = rstrip p l.
Proof.
  induction l as [|b t IH]; [reflexivity|].
  simpl. destruct (rstrip p t) as [|c t'] eqn:E.
  - destruct (p b) eqn:Eb; simpl; [reflexivity | now rewrite Eb].
  - change (rstrip p (b :: c :: t')) with
      (match rstrip p (c :: t') with
       | [] => if p b then [] else [b]
       | u => b :: u
       end).
    rewrite IH. reflexivity.
Qed.

Lemma length_rstrip (p : byte -> bool) (l : list byte) :
  (length (rstrip p l) <= length l)%nat.
Proof.
  induction l as [|b t IH]; simpl; [lia|].
  destruct (rstrip p t); [destruct (p b); simpl; lia | simpl in *; lia].
Qed.

Lemma load_bytes_mem_of_list (l : list byte) (k : nat) :
  load_bytes (mem_of_list (take k l ++ drop k l)) (Z.of_nat k) (length (drop k l))
  = drop k l.
Proof.
  rewrite take_drop.
  revert k. induction l as [|b t IH] using rev_ind; intros k.
  - rewrite drop_nil. reflexivity.
  - apply list_eq. intros i.
    destruct (Nat.lt_ge_cases i (length (drop k (t ++ [b])))) as [Hi|Hi].
    + destruct (lookup_lt_is_Some_2 _ _ Hi) as [x Hx]. rewrite Hx.
      assert (Hl : (i < length (load_bytes (mem_of_list (t ++ [b])) (Z.of_nat k)
                                   (length (drop k (t ++ [b])))))%nat)
        by (now rewrite length_load_bytes).
      destruct (lookup_lt_is_Some_2 _ _ Hl) as [y Hy]. rewrite Hy. f_equal.
      apply (nth_lookup_Some _ _ x00) in Hy. rewrite nth_load_bytes in Hy by exact Hi.
      rewrite lookup_drop in Hx. apply (nth_lookup_Some _ _ x00) in Hx.
      rewrite <- Hy, <- Hx. unfold mem_of_list.
      destruct (Z.of_nat k + Z.of_nat i <? 0) eqn:E; [apply Z.ltb_lt in E; lia|].
      f_equal. lia.
    + rewrite (lookup_ge_None_2 _ _ Hi).
      apply lookup_ge_None_2. now rewrite length_load_bytes.
Qed.

Lemma symbol_round_trip_general (r : BBODataFast) (sym : memory) (len : Z) :
  length (symbol r) = 8%nat ->
  get_symbol (set_symbol r sym len) =
  rstrip is_space_or_nul (load_bytes sym 0 (Z.to_nat (Z.min len 8))).
Proof.
  intros Hlen.
  pose proof (symbol_set_symbol r sym len Hlen) as Hs. cbv zeta in Hs.
  assert (Z.to_nat (Z.min len 8) <= 8)%nat by lia.
  assert (Hl8 : length (symbol (set_symbol r sym len)) = 8%nat).
  { rewrite Hs. rewrite length_app, length_load_bytes, length_replicate. lia. }
  unfold get_symbol. rewrite <- Hl8 at 1. rewrite take_trimmed_len, Hs.
  now apply rstrip_app_replicate.
Qed.

(** X8. Storing a trimmed symbol back gives the same trimmed symbol:
    for records with 8-byte symbol arrays, [set_symbol] of what
    [get_symbol] returned, followed by [get_symbol], returns it again. *)
Theorem retrim_is_identity (r r0 : BBODataFast) :
  length (symbol r) = 8%nat -> length (symbol r0) = 8%nat ->
  let g := get_symbol r0 in
  get_symbol (set_symbol r (mem_of_list g) (Z.of_nat (length g))) = g.
Proof.
  intros Hr Hr0 g.
  rewrite (symbol_round_trip_general r (mem_of_list g) (Z.of_nat (length g)) Hr).
  assert (Hg : g = rstrip is_space_or_nul (symbol r0)).
  { unfold g, get_symbol. rewrite <- Hr0 at 1. apply take_trimmed_len. }
  assert (Hlen : (length g <= 8)%nat).
  { rewrite Hg. pose proof (length_rstrip is_space_or_nul (symbol r0)). lia. }
  replace (Z.to_nat (Z.min (Z.of_nat (length g)) 8)) with (length g) by lia.
  pose proof (load_bytes_mem_of_list g 0) as Hload.
  rewrite take_0, drop_0 in Hload. change (Z.of_nat 0) with 0 in Hload.
  change ([] ++ g) with g in Hload. rewrite Hload.
  rewrite Hg. apply rstrip_idempotent.
Qed.

Lemma retrim_is_identity_witness :
  length (symbol zero_record) = 8%nat /\
  length (symbol (set_symbol zero_record
                    (mem_of_list (list_byte_of_string "IBM ")) 4)) = 8%nat /\
  get_symbol (set_symbol zero_record
                (mem_of_list (list_byte_of_string "IBM")) 3)
    = list_byte_of_string "IBM".
Proof.
  split; [reflexivity|]. split; [reflexivity|].
  exact (retrim_is_identity zero_record
           (set_symbol zero_record (mem_of_list (list_byte_of_string "IBM ")) 4)
           eq_refl eq_refl).
Defined.

(** X9. The conversion for the consumer keeps the ticker: the 16-byte
    symbol of the converted record ends in a NUL, and with its trailing
    spaces and NULs removed it is the trimmed symbol of the fast
    record. *)
Theorem to_gateway_keeps_trimmed_symbol (fast : BBODataFast) :
  length (symbol fast) = 8%nat ->
  length (gateway.symbol (to_gateway fast)) = gateway.SYMBOL_MAX_LEN /\
  last (gateway.symbol (to_gateway fast)) = Some NUL /\
  rstrip is_space_or_nul (gateway.symbol (to_gateway fast)) = get_symbol fast.
Proof.
  intros Hlen. rewrite (to_gateway_symbol fast Hlen).
  split; [rewrite !length_app, Hlen; reflexivity|].
  split; [rewrite app_assoc; apply last_snoc|].
  rewrite app_assoc.
  rewrite rstrip_snoc_drop by reflexivity.
  rewrite rstrip_app_replicate by reflexivity.
  unfold get_symbol. rewrite <- Hlen at 1. symmetry. apply take_trimmed_len.
Qed.

Lemma to_gateway_keeps_trimmed_symbol_witness :
  length (symbol zero_record) = 8%nat /\
  rstrip is_space_or_nul (gateway.symbol (to_gateway zero_record)) = [].
Proof.
  split; [reflexivity|].
  exact (proj2 (proj2 (to_gateway_keeps_trimmed_symbol zero_record eq_refl))).
Defined.

(** ** The hardware-timestamp annex *)

(** X10. [extract_timestamps] returns the all-zero default for every
    payload shorter than 44 bytes; otherwise its four timestamps are the
    32-bit big-endian values at offsets 28, 32, 36 and 40, and each
    latency is computed from the difference of two of them taken modulo
    2^32, so a later stamp that is numerically smaller (a wrapped
    counter) still gives the elapsed count. *)
Theorem extract_timestamps_decodes (data : memory) (len : Z) :
  (len < 44 -> extract_timestamps data len = no_timestamps) /\
  (44 <= len ->
   let ts := extract_timestamps data len in
   t1 ts = be32 data 28 /\ t2 ts = be32 data 32 /\
   t3 ts = be32 data 36 /\ t4 ts = be32 data 40 /\
   latency_a_us ts =
     PrimFloat.mul
       (PrimFloat.mul (u32_to_double ((be32 data 32 - be32 data 28) mod 2 ^ 32))
                      NS_PER_CYCLE) US_PER_NS /\
   latency_b_us ts =
     PrimFloat.mul
       (PrimFloat.mul (u32_to_double ((be32 data 40 - be32 data 36) mod 2 ^ 32))
                      NS_PER_CYCLE) US_PER_NS /\
   total_us ts = PrimFloat.add (latency_a_us ts) (latency_b_us ts) /\
   0 <= (be32 data 32 - be32 data 28) mod 2 ^ 32 < 2 ^ 32 /\
   (be32 data 32 < be32 data 28 ->
    (be32 data 32 - be32 data 28) mod 2 ^ 32
      = be32 data 32 - be32 data 28 + 2 ^ 32)).
Proof.
  unfold extract_timestamps, BBO_FULL_SIZE. split; intros Hlen.
  - destruct (len <? 44) eqn:E; [reflexivity | apply Z.ltb_ge in E; lia].
  - destruct (len <? 44) eqn:E; [apply Z.ltb_lt in E; lia|].
    cbv zeta. unfold calculate_latencies.
    cbn [t1 t2 t3 t4 latency_a_us latency_b_us total_us].
    rewrite !be32_decode.
    change (be32 (ptr_add data T1_OFFSET) 0) with (be32 data 28).
    change (be32 (ptr_add data T1_OFFSET) 4) with (be32 data 32).
    change (be32 (ptr_add data T1_OFFSET) 8) with (be32 data 36).
    change (be32 (ptr_add data T1_OFFSET) 12) with (be32 data 40).
    do 7 (split; [reflexivity|]).
    pose proof (be32_range data 28). pose proof (be32_range data 32).
    change (2 ^ 32) with 4294967296 in *.
    split; [apply Z.mod_pos_bound; lia|].
    intros Hlt. symmetry.
    apply (Z.mod_unique _ _ (-1)); lia.
Qed.

(** X11. The flag set by [parse] tells what [extract_timestamps] will
    do with the same payload: when the flag bit is clear the extraction
    returns the all-zero default, and when it is set the extraction
    reads the four big-endian stamps behind the 28 parsed bytes. *)
Theorem flag_announces_timestamps (POOL_SIZE : Z) (data : memory) (len : Z)
    (pool : BBOPool) (ts_ns seq : Z) (res : Z * BBOPool) :
  parse POOL_SIZE data len pool ts_ns seq = Some res ->
  (Z.land (flags (deref res)) BboFlags.HAS_FPGA_TIMESTAMPS = 0 ->
   extract_timestamps data len = no_timestamps) /\
  (Z.land (flags (deref res)) BboFlags.HAS_FPGA_TIMESTAMPS = 1 ->
   t1 (extract_timestamps data len) = be32 data 28 /\
   t4 (extract_timestamps data len) = be32 data 40).
Proof.
  intros Hp.
  assert (Hf : flags (deref res)
               = if BBO_FULL_SIZE <=? len then BboFlags.HAS_FPGA_TIMESTAMPS else 0).
  { unfold parse in Hp. destruct (len <? BBO_MIN_SIZE); [discriminate|].
    cbn in Hp. injection Hp as <-. rewrite deref_store_slot. reflexivity. }
  rewrite Hf. unfold extract_timestamps, BBO_FULL_SIZE.
  destruct (44 <=? len) eqn:E.
  - apply Z.leb_le in E. split; [discriminate|]. intros _.
    destruct (len <? 44) eqn:E'; [apply Z.ltb_lt in E'; lia|].
    unfold calculate_latencies. cbn [t1 t4]. rewrite !be32_decode.
    split; reflexivity.
  - apply Z.leb_gt in E. split; [|discriminate]. intros _.
    destruct (len <? 44) eqn:E'; [reflexivity | apply Z.ltb_ge in E'; lia].
Qed.

Lemma flag_announces_timestamps_witness :
  exists res,
    parse 1024 (mem_of_list aapl_payload) 28 fresh_pool 0 0 = Some res /\
    extract_timestamps (mem_of_list aapl_payload) 28 = no_timestamps.
Proof.
  eexists. split; [reflexivity|].
  apply (flag_announces_timestamps 1024 (mem_of_list aapl_payload) 28
           fresh_pool 0 0 _ eq_refl).
  reflexivity.
Defined.

(** ** The cycle counter *)

(** X12. [rdtsc] puts the high half above the low half without overlap:
    for 32-bit halves the result is [hi * 2^32 + lo], it fits in 64
    bits, and both halves can be read back from it. *)
Theorem rdtsc_assembles_halves (hi lo : Z) :
  0 <= hi < 2 ^ 32 -> 0 <= lo < 2 ^ 32 ->
  rdtsc hi lo = hi * 2 ^ 32 + lo /\
  0 <= rdtsc hi lo < 2 ^ 64 /\
  rdtsc hi lo mod 2 ^ 32 = lo /\
  rdtsc hi lo / 2 ^ 32 = hi.
Proof.
  intros Hhi Hlo.
  assert (Hsum : rdtsc hi lo = hi * 2 ^ 32 + lo).
  { unfold rdtsc. rewrite Z.shiftl_mul_pow2 by lia.
    symmetry. apply Z.add_nocarry_lor.
    apply Z.bits_inj'. intros n Hn. rewrite Z.land_spec, Z.bits_0.
    destruct (Z.lt_ge_cases n 32) as [Hlt|Hge].
    - rewrite Z.mul_pow2_bits_low by lia. reflexivity.
    - rewrite andb_comm.
      destruct (Z.eq_dec lo 0) as [->|Hne]; [now rewrite Z.bits_0|].
      rewrite (Z.bits_above_log2 lo n); [reflexivity | lia |].
      apply Z.log2_lt_pow2; [lia|].
      apply Z.lt_le_trans with (2 ^ 32); [lia|].
      apply Z.pow_le_mono_r; lia. }
  rewrite Hsum. change (2 ^ 32) with 4294967296 in *.
  change (2 ^ 64) with 18446744073709551616.
  split; [reflexivity|]. split; [lia|].
  split.
  - symmetry. apply (Z.mod_unique _ _ hi); lia.
  - symmetry. apply (Z.div_unique _ _ _ lo); lia.
Qed.

Lemma rdtsc_assembles_halves_witness :
  0 <= 3 < 2 ^ 32 /\ 0 <= 4294967295 < 2 ^ 32 /\
  rdtsc 3 4294967295 = 3 * 2 ^ 32 + 4294967295.
Proof.
  assert (H1 : 0 <= 3 < 2 ^ 32) by (change (2 ^ 32) with 4294967296; lia).
  assert (H2 : 0 <= 4294967295 < 2 ^ 32) by (change (2 ^ 32) with 4294967296; lia).
  split; [exact H1|]. split; [exact H2|].
  exact (proj1 (rdtsc_assembles_halves 3 4294967295 H1 H2)).
Defined.

(** ** The slot pool: reuse distance and construction *)

Lemma mod_pow2_inj (k a b : Z) :
  0 <= k -> 0 <= a < 2 ^ k -> 0 <= b < 2 ^ k -> forall h,
  (h + a) mod 2 ^ k = (h + b) mod 2 ^ k -> a = b.
Proof.
  intros Hk Ha Hb h Heq.
  assert (Hpos : 0 < 2 ^ k) by (apply Z.pow_pos_nonneg; lia).
  assert (Hd : (a - b) mod 2 ^ k = 0).
  { replace (a - b) with ((h + a) - (h + b)) by lia.
    rewrite Zminus_mod, Heq, Z.sub_diag. apply Z.mod_0_l. lia. }
  destruct (Z.lt_trichotomy a b) as [Hlt|[Heq'|Hgt]]; [|exact Heq'|].
  - assert (Hd' : (b - a) mod 2 ^ k = 0).
    { replace (b - a) with ((h + b) - (h + a)) by lia.
      rewrite Zminus_mod, Heq, Z.sub_diag. apply Z.mod_0_l. lia. }
    rewrite Z.mod_small in Hd' by lia. lia.
  - rewrite Z.mod_small in Hd by lia. lia.
Qed.

(** X13. A slot stays out of circulation for a full turn of the pool:
    with a pool of 2^k <= 2^32 slots, the acquires number [i + 1] and
    [j + 1] from any state return different slots whenever [i] and [j]
    are different and both below the pool size; in particular a slot is
    not handed out again by the next POOL_SIZE - 1 acquires. *)
Theorem acquire_distinct_within_a_turn (k : Z) (i j : nat) (p : BBOPool) :
  0 <= k <= 32 ->
  Z.of_nat i < 2 ^ k -> Z.of_nat j < 2 ^ k -> i <> j ->
  fst (acquire (2 ^ k) (acquire_times (2 ^ k) i p)) <>
  fst (acquire (2 ^ k) (acquire_times (2 ^ k) j p)).
Proof.
  intros Hk Hi Hj Hne Heq.
  rewrite !acquire_index_after in Heq by exact Hk.
  apply mod_pow2_inj in Heq; lia.
Qed.

Lemma acquire_distinct_within_a_turn_witness :
  0 <= 10 <= 32 /\ Z.of_nat 0 < 2 ^ 10 /\ Z.of_nat 1023 < 2 ^ 10 /\
  fst (acquire 1024 (acquire_times 1024 0 pool_before_wrap)) <>
  fst (acquire 1024 (acquire_times 1024 1023 pool_before_wrap)).
Proof.
  assert (H0 : Z.of_nat 0 < 2 ^ 10) by reflexivity.
  assert (H1 : Z.of_nat 1023 < 2 ^ 10) by reflexivity.
  split; [lia|]. split; [exact H0|]. split; [exact H1|].
  apply (acquire_distinct_within_a_turn 10 0 1023 pool_before_wrap);
    [lia | exact H0 | exact H1 | discriminate].
Defined.

Lemma prefault_from_spec (n : nat) (p : BBOPool) (i j : Z) :
  pool_ (prefault_from p i n) j =
    (if (i <=? j) && (j <? i + Z.of_nat n) then zero_record else pool_ p j) /\
  head_ (prefault_from p i n) = head_ p.
Proof.
  revert p i. induction n as [|n IH]; intros p i.
  - cbn [prefault_from]. split; [|reflexivity].
    destruct ((i <=? j) && (j <? i + Z.of_nat 0)) eqn:E; [|reflexivity].
    apply andb_true_iff in E. destruct E as [E1 E2].
    apply Z.leb_le in E1. apply Z.ltb_lt in E2. lia.
  - cbn [prefault_from]. destruct (IH (store_slot p i (clear (pool_ p i))) (i + 1))
      as [Hp Hh].
    split; [|rewrite Hh; reflexivity].
    rewrite Hp. unfold store_slot, clear. cbn [pool_].
    destruct (Z.eq_dec j i) as [->|Hne].
    + rewrite Z.eqb_refl.
      replace ((i <=? i) && (i <? i + Z.of_nat (S n))) with true
        by (symmetry; apply andb_true_iff; split;
            [apply Z.leb_le | apply Z.ltb_lt]; lia).
      destruct ((i + 1 <=? i) && (i <? i + 1 + Z.of_nat n)); reflexivity.
    + replace (j =? i) with false by (symmetry; apply Z.eqb_neq; exact Hne).
      replace ((i + 1 <=? j) && (j <? i + 1 + Z.of_nat n))
        with ((i <=? j) && (j <? i + Z.of_nat (S n))); [reflexivity|].
      destruct (i <=? j) eqn:E1; destruct (i + 1 <=? j) eqn:E2;
        destruct (j <? i + Z.of_nat (S n)) eqn:E3;
        destruct (j <? i + 1 + Z.of_nat n) eqn:E4; try reflexivity;
        try apply Z.leb_le in E1; try apply Z.leb_gt in E1;
        try apply Z.leb_le in E2; try apply Z.leb_gt in E2;
        try apply Z.ltb_lt in E3; try apply Z.ltb_ge in E3;
        try apply Z.ltb_lt in E4; try apply Z.ltb_ge in E4; lia.
Qed.

(** X14. Construction clears the pool and nothing else: whatever the
    allocated storage held, after the constructor every slot with index
    in [0, POOL_SIZE) is all zero (not valid, no flags, empty trimmed
    symbol), storage outside that range is untouched, and the head
    counter is 0, so the first acquire returns slot 0. *)
Theorem new_pool_is_cleared (POOL_SIZE : Z) (storage : Z -> BBODataFast) :
  0 <= POOL_SIZE ->
  let p := new_pool POOL_SIZE storage in
  (forall i, 0 <= i < POOL_SIZE ->
     pool_ p i = zero_record /\ valid (pool_ p i) = 0 /\
     flags (pool_ p i) = 0 /\ get_symbol (pool_ p i) = []) /\
  (forall i, i < 0 \/ POOL_SIZE <= i -> pool_ p i = storage i) /\
  head_ p = 0 /\
  fst (acquire POOL_SIZE p) = 0.
Proof.
  intros Hn p. unfold p, new_pool, prefault_pool.
  split; [|split; [|split]].
  - intros i Hi.
    destruct (prefault_from_spec (Z.to_nat POOL_SIZE)
                {| pool_ := storage; head_ := 0 |} 0 i) as [Hp _].
    rewrite Hp.
    replace ((0 <=? i) && (i <? 0 + Z.of_nat (Z.to_nat POOL_SIZE))) with true
      by (symmetry; apply andb_true_iff; split;
          [apply Z.leb_le | apply Z.ltb_lt]; lia).
    repeat split; reflexivity.
  - intros i Hi.
    destruct (prefault_from_spec (Z.to_nat POOL_SIZE)
                {| pool_ := storage; head_ := 0 |} 0 i) as [Hp _].
    rewrite Hp.
    replace ((0 <=? i) && (i <? 0 + Z.of_nat (Z.to_nat POOL_SIZE))) with false;
      [reflexivity|].
    symmetry. apply andb_false_iff.
    destruct Hi; [left; apply Z.leb_gt | right; apply Z.ltb_ge]; lia.
  - exact (proj2 (prefault_from_spec (Z.to_nat POOL_SIZE)
                    {| pool_ := storage; head_ := 0 |} 0 0)).
  - unfold acquire. cbn [fst].
    rewrite (proj2 (prefault_from_spec (Z.to_nat POOL_SIZE)
                      {| pool_ := storage; head_ := 0 |} 0 0)).
    cbn [head_]. rewrite Z.land_0_l. reflexivity.
Qed.

Lemma new_pool_is_cleared_witness :
  0 <= 1024 /\
  pool_ (new_pool 1024 (fun _ => with_symbol zero_record
                                   (list_byte_of_string "GARBAGE!"))) 1023
    = zero_record.
Proof.
  split; [lia|].
  apply (new_pool_is_cleared 1024
           (fun _ => with_symbol zero_record (list_byte_of_string "GARBAGE!"))).
  - lia.
  - lia.
Defined.


(** ** Bursts, counters and sequence numbers *)

Lemma parse_writes_one_slot_aux (POOL_SIZE : Z) (data : memory) (len : Z)
    (pool : BBOPool) (ts_ns seq : Z) (res : Z * BBOPool) :
  parse POOL_SIZE data len pool ts_ns seq = Some res ->
  head_ (snd res) = wrap32 (head_ pool + 1).
Proof.
  unfold parse. destruct (len <? BBO_MIN_SIZE); [discriminate|].
  cbn. intros [= <-]. reflexivity.
Qed.

Section Bursts.
Context {R : Type} `{RingBuffer R}.

Lemma accepts_frame_iff (cfg : Config) (pkt : memory) :
  accepts_frame cfg pkt = true <-> addressed_to_receiver cfg pkt.
Proof.
  unfold accepts_frame, addressed_to_receiver.
  rewrite !andb_true_iff, !Z.eqb_eq. tauto.
Qed.

Lemma process_packet_rejected (r : DPDKReceiver R) (ts : Z) (pkt : memory) :
  accepts_frame (config_ r) pkt = false -> process_packet ts pkt r = (tt, r).
Proof.
  intros Hrej. apply process_packet_filtered.
  unfold accepts_frame in Hrej.
  destruct (frame_ether_type pkt =? RTE_ETHER_TYPE_IPV4) eqn:E1;
    [|left; now apply Z.eqb_neq].
  destruct (frame_ip_protocol pkt =? IPPROTO_UDP) eqn:E2;
    [|right; left; now apply Z.eqb_neq].
  destruct (frame_udp_dst_port pkt =? udp_port (config_ r)) eqn:E3;
    [discriminate | right; right; now apply Z.eqb_neq].
Qed.

Lemma wrap64_balance_step (a b c : Z) :
  wrap64 a = wrap64 (b + c) ->
  wrap64 (wrap64 (a + 1)) = wrap64 (wrap64 (b + 1) + c) /\
  wrap64 (wrap64 (a + 1)) = wrap64 (b + wrap64 (c + 1)).
Proof.
  unfold wrap64, UINT64_MOD. change (2 ^ 64) with 18446744073709551616.
  intros Hb. split; Z.div_mod_to_equations; lia.
Qed.

(** What one call of [process_packet] does to the members that the
    statistics and the sequence numbering depend on. *)
Lemma process_packet_effect (r : DPDKReceiver R) (ts : Z) (pkt : memory) :
  let r' := snd (process_packet ts pkt r) in
  let accepted := accepts_frame (config_ r) pkt in
  let parsed := accepted && (BBO_MIN_SIZE <=? udp_payload_len pkt) in
  config_ r' = config_ r /\
  tsc_ r' = tsc_ r /\
  packets_dropped (stats_ r') = packets_dropped (stats_ r) /\
  sequence_ r' = (if accepted then wrap32 (sequence_ r + 1) else sequence_ r) /\
  head_ (bbo_pool_ r') =
    (if parsed then wrap32 (head_ (bbo_pool_ r) + 1) else head_ (bbo_pool_ r)) /\
  packets_received (stats_ r') =
    (if accepted && enable_stats (config_ r)
     then wrap64 (packets_received (stats_ r) + 1)
     else packets_received (stats_ r)) /\
  (stats_balanced (stats_ r) -> stats_balanced (stats_ r')).
Proof.
  cbv zeta.
  destruct (accepts_frame (config_ r) pkt) eqn:Ea.
  - apply accepts_frame_iff in Ea.
    destruct (parse RECEIVER_POOL_SIZE (udp_payload pkt) (udp_payload_len pkt)
                (bbo_pool_ r) (cycles_to_ns (tsc_ r) ts) (sequence_ r))
      as [[idx pool']|] eqn:Ep.
    + rewrite (process_packet_parsed r ts pkt idx pool' Ea Ep). cbn [snd].
      cbn [config_ tsc_ stats_ sequence_ bbo_pool_].
      assert (Hlen : (BBO_MIN_SIZE <=? udp_payload_len pkt) = true).
      { unfold parse in Ep.
        destruct (udp_payload_len pkt <? BBO_MIN_SIZE) eqn:E; [discriminate|].
        apply Z.leb_le. apply Z.ltb_ge in E. exact E. }
      rewrite Hlen. cbn [andb].
      pose proof (parse_writes_one_slot_aux _ _ _ _ _ _ _ Ep) as Hhead.
      cbn [snd] in Hhead. rewrite Hhead.
      destruct (enable_stats (config_ r)); cbn [andb];
        repeat split; try reflexivity.
      * destruct (fst (try_publish _ _)); reflexivity.
      * destruct (fst (try_publish _ _)); reflexivity.
      * intros Hb. unfold stats_balanced in *.
        destruct (fst (try_publish _ _)); cbn; unfold fetch_add_1;
          now apply wrap64_balance_step.
      * auto.
    + rewrite (process_packet_parse_failed r ts pkt Ea Ep). cbn [snd].
      cbn [config_ tsc_ stats_ sequence_ bbo_pool_].
      assert (Hlen : (BBO_MIN_SIZE <=? udp_payload_len pkt) = false).
      { unfold parse in Ep.
        destruct (udp_payload_len pkt <? BBO_MIN_SIZE) eqn:E;
          [apply Z.leb_gt; now apply Z.ltb_lt in E | cbn in Ep; discriminate]. }
      rewrite Hlen. cbn [andb].
      destruct (enable_stats (config_ r)); cbn [andb];
        repeat split; try reflexivity.
      * intros Hb. unfold stats_balanced in *. cbn. unfold fetch_add_1.
        now apply wrap64_balance_step.
      * auto.
  - rewrite (process_packet_rejected r ts pkt Ea). cbn [snd andb].
    repeat split; try reflexivity. auto.
Qed.

Lemma process_burst_cons (ts : Z) (pkt : memory) (rest : list (Z * memory))
    (r : DPDKReceiver R) :
  process_burst ((ts, pkt) :: rest) r
  = process_burst rest (snd (process_packet ts pkt r)).
Proof.
  cbn [process_burst]. unfold bind at 1. now destruct (process_packet ts pkt r).
Qed.

Lemma process_burst_unit (pkts : list (Z * memory)) (r : DPDKReceiver R) :
  process_burst pkts r = (tt, snd (process_burst pkts r)).
Proof. destruct (process_burst pkts r) as [[] r']. reflexivity. Qed.

Lemma process_burst_effect (pkts : list (Z * memory)) (r : DPDKReceiver R) :
  let r' := snd (process_burst pkts r) in
  config_ r' = config_ r /\
  tsc_ r' = tsc_ r /\
  packets_dropped (stats_ r') = packets_dropped (stats_ r) /\
  wrap32 (sequence_ r') = wrap32 (sequence_ r + accepted_count (config_ r) pkts) /\
  wrap32 (head_ (bbo_pool_ r'))
    = wrap32 (head_ (bbo_pool_ r) + parsed_count (config_ r) pkts) /\
  (enable_stats (config_ r) = true ->
   wrap64 (packets_received (stats_ r'))
     = wrap64 (packets_received (stats_ r) + accepted_count (config_ r) pkts)) /\
  (enable_stats (config_ r) = false -> stats_ r' = stats_ r) /\
  (stats_balanced (stats_ r) -> stats_balanced (stats_ r')).
Proof.
  revert r. induction pkts as [|[ts pkt] rest IH]; intros r; cbv zeta.
  - cbn. unfold accepted_count, parsed_count. cbn. rewrite !Z.add_0_r.
    repeat split; auto.
  - rewrite process_burst_cons.
    destruct (process_packet_effect r ts pkt)
      as (Hc & Ht & Hd & Hs & Hh & Hr & Hb).
    set (r1 := snd (process_packet ts pkt r)) in *.
    destruct (IH r1) as (Hc' & Ht' & Hd' & Hs' & Hh' & Hr' & Hq' & Hb').
    rewrite Hc in *.
    assert (Hac : accepted_count (config_ r) ((ts, pkt) :: rest)
                  = (if accepts_frame (config_ r) pkt then 1 else 0)
                    + accepted_count (config_ r) rest).
    { unfold accepted_count.
      destruct (accepts_frame (config_ r) pkt) eqn:E.
      - rewrite filter_cons_True by exact E. cbn [length]. lia.
      - rewrite filter_cons_False by (cbn [snd]; congruence). lia. }
    assert (Hpc : parsed_count (config_ r) ((ts, pkt) :: rest)
                  = (if accepts_frame (config_ r) pkt
                        && (BBO_MIN_SIZE <=? udp_payload_len pkt) then 1 else 0)
                    + parsed_count (config_ r) rest).
    { unfold parsed_count.
      destruct (accepts_frame (config_ r) pkt
                && (BBO_MIN_SIZE <=? udp_payload_len pkt)) eqn:E.
      - rewrite filter_cons_True by exact E. cbn [length]. lia.
      - rewrite filter_cons_False by (cbn [snd]; congruence). lia. }
    split; [congruence|]. split; [congruence|]. split; [congruence|].
    split.
    { rewrite Hs', Hs, Hac. unfold wrap32.
      destruct (accepts_frame (config_ r) pkt).
      - rewrite Zplus_mod_idemp_l. f_equal; lia.
      - f_equal; lia. }
    split.
    { rewrite Hh', Hh, Hpc. unfold wrap32.
      destruct (accepts_frame (config_ r) pkt && (BBO_MIN_SIZE <=? udp_payload_len pkt)).
      - rewrite Zplus_mod_idemp_l. f_equal; lia.
      - f_equal; lia. }
    split.
    { intros Hen. rewrite (Hr' Hen), Hr, Hac, Hen. unfold wrap64.
      destruct (accepts_frame (config_ r) pkt); cbn [andb].
      - rewrite Zplus_mod_idemp_l. f_equal; lia.
      - f_equal; lia. }
    split.
    { intros Hen. rewrite (Hq' Hen).
      destruct (accepts_frame (config_ r) pkt) eqn:Ea.
      - apply accepts_frame_iff in Ea. unfold r1.
        destruct (parse RECEIVER_POOL_SIZE (udp_payload pkt) (udp_payload_len pkt)
                    (bbo_pool_ r) (cycles_to_ns (tsc_ r) ts) (sequence_ r))
          as [[idx pool']|] eqn:Ep.
        + rewrite (process_packet_parsed r ts pkt idx pool' Ea Ep).
          cbn [snd stats_]. now rewrite Hen.
        + rewrite (process_packet_parse_failed r ts pkt Ea Ep).
          cbn [snd stats_]. now rewrite Hen.
      - unfold r1. now rewrite (process_packet_rejected r ts pkt Ea). }
    auto.
Qed.

(** X15. Whatever frames a burst holds, [process_burst] keeps the
    statistics balanced: if [packets_received] equals
    [packets_processed + parse_errors] (modulo 2^64) before the burst it
    does so after it, and [packets_dropped] is never written. *)
Theorem burst_keeps_stats_balanced (pkts : list (Z * memory)) (r : DPDKReceiver R) :
  stats_balanced (stats_ r) ->
  stats_balanced (stats_ (snd (process_burst pkts r))) /\
  packets_dropped (stats_ (snd (process_burst pkts r))) = packets_dropped (stats_ r).
Proof.
  intros Hb.
  destruct (process_burst_effect pkts r) as (_ & _ & Hd & _ & _ & _ & _ & Hbal).
  split; [now apply Hbal | exact Hd].
Qed.

(** X16. A burst consumes one sequence number per frame that passes the
    three header checks, whether or not its payload parses, and one pool
    slot per frame whose payload is also at least 28 bytes long; frames
    that fail a check consume neither. The configuration and the clock
    are left alone, and with statistics enabled [packets_received] grows
    by the number of frames that passed the checks. *)
Theorem burst_consumes_sequence_numbers (pkts : list (Z * memory))
    (r : DPDKReceiver R) :
  let r' := snd (process_burst pkts r) in
  config_ r' = config_ r /\
  tsc_ r' = tsc_ r /\
  wrap32 (sequence_ r') = wrap32 (sequence_ r + accepted_count (config_ r) pkts) /\
  wrap32 (head_ (bbo_pool_ r'))
    = wrap32 (head_ (bbo_pool_ r) + parsed_count (config_ r) pkts) /\
  (enable_stats (config_ r) = true ->
   wrap64 (packets_received (stats_ r'))
     = wrap64 (packets_received (stats_ r) + accepted_count (config_ r) pkts)) /\
  (enable_stats (config_ r) = false -> stats_ r' = stats_ r).
Proof.
  cbv zeta.
  destruct (process_burst_effect pkts r)
    as (Hc & Ht & _ & Hs & Hh & Hr & Hq & _).
  repeat split; assumption.
Qed.

Lemma process_burst_app (a b : list (Z * memory)) (r : DPDKReceiver R) :
  process_burst (a ++ b) r = process_burst b (snd (process_burst a r)).
Proof.
  revert r. induction a as [|[ts pkt] a IH]; intros r; [reflexivity|].
  rewrite <- app_comm_cons, !process_burst_cons. apply IH.
Qed.

(** X17. How the received frames are cut into bursts does not matter:
    the iterations of the poll loop over any sequence of bursts, empty
    ones included, leave the receiver in the state that one
    [process_burst] over all the frames in order would. *)
Theorem poll_iterations_is_one_burst (bursts : list (list (Z * memory)))
    (r : DPDKReceiver R) :
  poll_iterations bursts r = process_burst (concat bursts) r.
Proof.
  revert r. induction bursts as [|b rest IH]; intros r; [reflexivity|].
  cbn [poll_iterations concat]. unfold bind at 1.
  rewrite process_burst_app.
  destruct b as [|p b'].
  - cbn. apply IH.
  - replace (0 <? length (p :: b'))%nat with true by reflexivity.
    rewrite (process_burst_unit (p :: b') r). apply IH.
Qed.

End Bursts.

(** ** From the wire to the ring *)

Section Traffic.
Context {R : Type} `{RingBuffer R}.

Lemma be16_range (m : memory) (off : Z) : 0 <= be16 m off < 65536.
Proof.
  unfold be16.
  pose proof (load8_range m off). pose proof (load8_range m (off + 1)). lia.
Qed.

Lemma payload_len_plain (pkt : memory) :
  UDP_SIZE <= frame_udp_dgram_len pkt ->
  udp_payload_len pkt = frame_udp_dgram_len pkt - UDP_SIZE.
Proof.
  unfold udp_payload_len, frame_udp_dgram_len. rewrite be16_decode.
  pose proof (be16_range (udp_header pkt) DGRAM_LEN_OFFSET) as Hr.
  unfold UDP_SIZE, wrap64, UINT64_MOD. intros Hd.
  change (2 ^ 64) with 18446744073709551616.
  apply Z.mod_small. lia.
Qed.

(** The slot and the ring after an accepted frame with a payload of at
    least 28 bytes. *)
Lemma process_packet_fills_slot (r : DPDKReceiver R) (ts : Z) (pkt : memory) :
  addressed_to_receiver (config_ r) pkt ->
  BBO_MIN_SIZE <= udp_payload_len pkt ->
  let r' := snd (process_packet ts pkt r) in
  let idx := fst (acquire RECEIVER_POOL_SIZE (bbo_pool_ r)) in
  let filled := populate (pool_ (bbo_pool_ r) idx) (udp_payload pkt)
                  (udp_payload_len pkt) (cycles_to_ns (tsc_ r) ts) (sequence_ r) in
  pool_ (bbo_pool_ r') idx = filled /\
  ring_buffer_ r' = snd (try_publish (ring_buffer_ r) (to_gateway filled)).
Proof.
  intros Ha Hmin r' idx filled.
  pose proof (parse_some RECEIVER_POOL_SIZE (udp_payload pkt)
                (udp_payload_len pkt) (bbo_pool_ r)
                (cycles_to_ns (tsc_ r) ts) (sequence_ r) Hmin) as Hp.
  cbv zeta in Hp. fold idx in Hp. fold filled in Hp.
  pose proof (process_packet_parsed r ts pkt _ _ Ha Hp) as Hrun.
  cbv zeta in Hrun. rewrite pool_store_slot_same in Hrun.
  unfold r'. rewrite Hrun. cbn [snd bbo_pool_ ring_buffer_].
  split; [apply pool_store_slot_same | reflexivity].
Qed.

(** X18. A frame that passes the three header checks and whose
    [dgram_len] field is at least 36 is parsed and offered to the ring:
    the payload length is [dgram_len - 8], the slot record carries the
    receiver's current sequence number and the converted reception
    time, is valid, has the hardware-timestamp flag exactly when
    [dgram_len] is at least 52, holds the big-endian share counts of the
    payload, and its conversion is the record given to [try_publish]. *)
Theorem accepted_packet_is_published (r : DPDKReceiver R) (ts : Z) (pkt : memory) :
  addressed_to_receiver (config_ r) pkt ->
  36 <= frame_udp_dgram_len pkt ->
  let r' := snd (process_packet ts pkt r) in
  let idx := fst (acquire RECEIVER_POOL_SIZE (bbo_pool_ r)) in
  let rec := pool_ (bbo_pool_ r') idx in
  udp_payload_len pkt = frame_udp_dgram_len pkt - 8 /\
  sequence rec = sequence_ r /\
  timestamp_ns rec = cycles_to_ns (tsc_ r) ts /\
  valid rec = 1 /\
  (flags rec = BboFlags.HAS_FPGA_TIMESTAMPS <-> 52 <= frame_udp_dgram_len pkt) /\
  (flags rec = 0 <-> frame_udp_dgram_len pkt < 52) /\
  bid_shares rec = be32 (udp_payload pkt) 12 /\
  ask_shares rec = be32 (udp_payload pkt) 20 /\
  ring_buffer_ r' = snd (try_publish (ring_buffer_ r) (to_gateway rec)) /\
  gateway.timestamp_ns (to_gateway rec) = to_int64 (cycles_to_ns (tsc_ r) ts) /\
  gateway.valid (to_gateway rec) = true.
Proof.
  intros Ha Hd r' idx rec.
  assert (Hlen : udp_payload_len pkt = frame_udp_dgram_len pkt - 8)
    by (apply payload_len_plain; unfold UDP_SIZE; lia).
  assert (Hmin : BBO_MIN_SIZE <= udp_payload_len pkt)
    by (rewrite Hlen; unfold BBO_MIN_SIZE; lia).
  destruct (process_packet_fills_slot r ts pkt Ha Hmin) as [Hrec Hring].
  fold r' in Hrec, Hring. fold idx in Hrec, Hring. fold rec in Hrec.
  rewrite <- Hrec in Hring.
  assert (Hflags : flags rec
            = if 44 <=? frame_udp_dgram_len pkt - 8 then 1 else 0)
    by (rewrite Hrec; unfold populate; cbn [flags]; now rewrite Hlen).
  split; [exact Hlen|].
  split; [rewrite Hrec; reflexivity|].
  split; [rewrite Hrec; reflexivity|].
  split; [rewrite Hrec; reflexivity|].
  split.
  { rewrite Hflags. unfold BboFlags.HAS_FPGA_TIMESTAMPS.
    destruct (44 <=? frame_udp_dgram_len pkt - 8) eqn:E;
      [apply Z.leb_le in E | apply Z.leb_gt in E];
      split; intros; try lia; try reflexivity; discriminate. }
  split.
  { rewrite Hflags.
    destruct (44 <=? frame_udp_dgram_len pkt - 8) eqn:E;
      [apply Z.leb_le in E | apply Z.leb_gt in E];
      split; intros; try lia; try reflexivity; discriminate. }
  split.
  { rewrite Hrec. unfold populate. cbn [bid_shares]. rewrite be32_decode.
    reflexivity. }
  split.
  { rewrite Hrec. unfold populate. cbn [ask_shares]. rewrite be32_decode.
    reflexivity. }
  split; [exact Hring|].
  rewrite Hrec. split; reflexivity.
Qed.

Lemma warm_dpdk_path_in_range (allocs : list (option (memory * Z)))
    (r : DPDKReceiver R) :
  0 <= udp_port (config_ r) < 65536 ->
  0 <= sequence_ r < UINT32_MOD ->
  0 <= head_ (bbo_pool_ r) < UINT32_MOD ->
  let r' := snd (warm_dpdk_path allocs r) in
  0 <= sequence_ r' < UINT32_MOD /\ 0 <= head_ (bbo_pool_ r') < UINT32_MOD.
Proof.
  revert r. induction allocs as [|a rest IH]; intros r Hport Hs Hh; cbv zeta.
  - cbn. auto.
  - rewrite warm_dpdk_path_cons. destruct a as [[buf ts]|].
    + rewrite (warm_one_created r buf ts Hport). cbn [snd].
      apply IH; cbn [config_ sequence_ bbo_pool_ store_slot head_];
        [exact Hport | | rewrite head_acquire];
        unfold wrap32; apply Z.mod_pos_bound; reflexivity.
    + change (snd (warm_one None r)) with r. now apply IH.
Qed.

(** X19. Warm-up uses up sequence numbers and pool slots: after
    [warm_dpdk_path] the sequence counter and the pool head have both
    advanced, modulo 2^32, by the number of synthetic packets that could
    be created, so the first real packet that parses afterwards is
    stamped with that shifted sequence number. *)
Theorem warm_up_shifts_sequence_numbers (allocs : list (option (memory * Z)))
    (r : DPDKReceiver R) (ts : Z) (pkt : memory) :
  0 <= udp_port (config_ r) < 65536 ->
  0 <= sequence_ r < UINT32_MOD ->
  0 <= head_ (bbo_pool_ r) < UINT32_MOD ->
  addressed_to_receiver (config_ r) pkt ->
  BBO_MIN_SIZE <= udp_payload_len pkt ->
  let created :=
    Z.of_nat (length (filter (fun a => bool_decide (a <> None)) allocs)) in
  let warm := snd (warm_dpdk_path allocs r) in
  let r' := snd (process_packet ts pkt warm) in
  sequence_ warm = wrap32 (sequence_ r + created) /\
  head_ (bbo_pool_ warm) = wrap32 (head_ (bbo_pool_ r) + created) /\
  sequence (pool_ (bbo_pool_ r')
              (fst (acquire RECEIVER_POOL_SIZE (bbo_pool_ warm))))
    = wrap32 (sequence_ r + created).
Proof.
  intros Hport Hs Hh Ha Hmin created warm r'.
  destruct (warm_dpdk_path_consumes allocs r Hport) as (Hc & Hseq & Hhead).
  destruct (warm_dpdk_path_in_range allocs r Hport Hs Hh) as [Hs' Hh'].
  fold warm in Hc, Hseq, Hhead, Hs', Hh'. fold created in Hseq, Hhead.
  assert (E1 : sequence_ warm = wrap32 (sequence_ r + created)).
  { rewrite <- Hseq. unfold wrap32. symmetry. now apply Z.mod_small. }
  assert (E2 : head_ (bbo_pool_ warm) = wrap32 (head_ (bbo_pool_ r) + created)).
  { rewrite <- Hhead. unfold wrap32. symmetry. now apply Z.mod_small. }
  split; [exact E1|]. split; [exact E2|].
  assert (Ha' : addressed_to_receiver (config_ warm) pkt) by (now rewrite Hc).
  destruct (process_packet_fills_slot warm ts pkt Ha' Hmin) as [Hrec _].
  fold r' in Hrec. rewrite Hrec. unfold populate. cbn [sequence]. exact E1.
Qed.

(** X20. [packets_processed] counts parsed packets, not published ones:
    for an accepted frame with a payload of at least 28 bytes and
    statistics enabled, [packets_processed] goes up by one whether or
    not the ring took the record; [ring_buffer_full] goes up by one
    exactly when the ring refused it, in which case the ring is as
    [try_publish] left it and the record stays in its pool slot;
    [parse_errors] does not move. *)
Theorem dropped_publish_counts_as_processed (r : DPDKReceiver R) (ts : Z)
    (pkt : memory) :
  addressed_to_receiver (config_ r) pkt ->
  BBO_MIN_SIZE <= udp_payload_len pkt ->
  enable_stats (config_ r) = true ->
  let r' := snd (process_packet ts pkt r) in
  let idx := fst (acquire RECEIVER_POOL_SIZE (bbo_pool_ r)) in
  let pub := try_publish (ring_buffer_ r) (to_gateway (pool_ (bbo_pool_ r') idx)) in
  packets_processed (stats_ r') = wrap64 (packets_processed (stats_ r) + 1) /\
  packets_received (stats_ r') = wrap64 (packets_received (stats_ r) + 1) /\
  parse_errors (stats_ r') = parse_errors (stats_ r) /\
  ring_buffer_full (stats_ r') =
    (if fst pub then ring_buffer_full (stats_ r)
     else wrap64 (ring_buffer_full (stats_ r) + 1)) /\
  ring_buffer_ r' = snd pub /\
  valid (pool_ (bbo_pool_ r') idx) = 1.
Proof.
  intros Ha Hmin Hen r' idx pub.
  destruct (process_packet_fills_slot r ts pkt Ha Hmin) as [Hrec Hring].
  fold r' in Hrec, Hring. fold idx in Hrec, Hring.
  pose proof (parse_some RECEIVER_POOL_SIZE (udp_payload pkt)
                (udp_payload_len pkt) (bbo_pool_ r)
                (cycles_to_ns (tsc_ r) ts) (sequence_ r) Hmin) as Hp.
  cbv zeta in Hp. fold idx in Hp.
  pose proof (process_packet_parsed r ts pkt _ _ Ha Hp) as Hrun.
  cbv zeta in Hrun. rewrite pool_store_slot_same in Hrun.
  assert (Hstats : stats_ r' =
            count_packets_processed
              ((if fst pub then fun s => s else count_ring_buffer_full)
                 (count_packets_received (stats_ r)))).
  { unfold pub. rewrite Hrec. unfold r'. rewrite Hrun. cbn [snd stats_].
    now rewrite Hen. }
  rewrite Hstats.
  split; [destruct (fst pub); reflexivity|].
  split; [destruct (fst pub); reflexivity|].
  split; [destruct (fst pub); reflexivity|].
  split; [destruct (fst pub); reflexivity|].
  split; [unfold pub; rewrite Hrec; exact Hring|].
  rewrite Hrec. reflexivity.
Qed.

End Traffic.

(** ** The further properties on concrete inputs *)

Lemma burst_keeps_stats_balanced_witness :
  stats_balanced (stats_ (initial_receiver empty_ring)) /\
  stats_balanced
    (stats_ (snd (process_burst mixed_burst (initial_receiver empty_ring)))) /\
  packets_received
    (stats_ (snd (process_burst mixed_burst (initial_receiver empty_ring)))) = 2.
Proof.
  assert (Hb : stats_balanced (stats_ (initial_receiver empty_ring)))
    by reflexivity.
  split; [exact Hb|].
  split; [|reflexivity].
  exact (proj1 (burst_keeps_stats_balanced mixed_burst
                  (initial_receiver empty_ring) Hb)).
Defined.

Lemma accepted_packet_is_published_witness :
  let r := initial_receiver empty_ring in
  let r' := snd (process_packet 9 aapl_frame r) in
  addressed_to_receiver (config_ r) aapl_frame /\
  36 <= frame_udp_dgram_len aapl_frame /\
  udp_payload_len aapl_frame = 28 /\
  bid_shares (pool_ (bbo_pool_ r') 0) = 100 /\
  length (entries (ring_buffer_ r')) = 1%nat.
Proof.
  intros r r'.
  assert (Ha : addressed_to_receiver (config_ r) aapl_frame)
    by (repeat split; reflexivity).
  assert (Hd : 36 <= frame_udp_dgram_len aapl_frame) by (vm_compute; discriminate).
  split; [exact Ha|]. split; [exact Hd|].
  destruct (accepted_packet_is_published r 9 aapl_frame Ha Hd)
    as (Hlen & _ & _ & _ & _ & _ & Hbid & _ & Hring & _).
  split; [exact Hlen|].
  split; [exact Hbid|].
  exact (f_equal (fun ring => length (entries ring)) Hring).
Defined.

Lemma warm_up_shifts_sequence_numbers_witness :
  let r := initial_receiver empty_ring in
  let warm := snd (warm_dpdk_path warm_up_run r) in
  0 <= udp_port (config_ r) < 65536 /\
  0 <= sequence_ r < UINT32_MOD /\
  0 <= head_ (bbo_pool_ r) < UINT32_MOD /\
  addressed_to_receiver (config_ r) aapl_frame /\
  BBO_MIN_SIZE <= udp_payload_len aapl_frame /\
  sequence_ warm = 2 /\
  sequence (pool_ (bbo_pool_ (snd (process_packet 9 aapl_frame warm))) 2) = 2.
Proof.
  intros r warm.
  assert (Hport : 0 <= udp_port (config_ r) < 65536) by (simpl; lia).
  assert (Hs : 0 <= sequence_ r < UINT32_MOD) by (vm_compute; split; [discriminate | reflexivity]).
  assert (Hh : 0 <= head_ (bbo_pool_ r) < UINT32_MOD)
    by (vm_compute; split; [discriminate | reflexivity]).
  assert (Ha : addressed_to_receiver (config_ r) aapl_frame)
    by (repeat split; reflexivity).
  assert (Hmin : BBO_MIN_SIZE <= udp_payload_len aapl_frame)
    by (vm_compute; discriminate).
  do 5 (split; [assumption|]).
  destruct (warm_up_shifts_sequence_numbers warm_up_run r 9 aapl_frame
              Hport Hs Hh Ha Hmin) as (Hseq & _ & Hrec).
  split; [exact Hseq | exact Hrec].
Defined.

Lemma dropped_publish_counts_as_processed_witness :
  let r := initial_receiver full_ring in
  let r' := snd (process_packet 9 aapl_frame r) in
  addressed_to_receiver (config_ r) aapl_frame /\
  BBO_MIN_SIZE <= udp_payload_len aapl_frame /\
  enable_stats (config_ r) = true /\
  packets_processed (stats_ r') = 1 /\
  ring_buffer_full (stats_ r') = 1 /\
  entries (ring_buffer_ r') = [].
Proof.
  intros r r'.
  assert (Ha : addressed_to_receiver (config_ r) aapl_frame)
    by (repeat split; reflexivity).
  assert (Hmin : BBO_MIN_SIZE <= udp_payload_len aapl_frame)
    by (vm_compute; discriminate).
  do 2 (split; [assumption|]). split; [reflexivity|].
  destruct (dropped_publish_counts_as_processed r 9 aapl_frame Ha Hmin eq_refl)
    as (Hproc & _ & _ & Hfull & Hring & _).
  split; [exact Hproc|]. split; [exact Hfull|].
  exact (f_equal entries Hring).
Defined.
